(** * Page permission resolution of django CMS (cms/utils/page_permissions.py)

    A shallow embedding of the permission gate, the view-visibility rule and
    the grant-set resolver, together with the properties stated about them.

    Python objects become records, the two module-level dictionaries become
    finite maps with string keys, and the code that touches the permission
    cache or calls into collaborators runs in a small state-and-exception
    monad whose state carries the cache and a trace of collaborator calls. *)

From Stdlib Require Import ZArith Bool List Lia.
From stdpp Require Import base option gmap strings list.

Local Open Scope Z_scope.
Local Open Scope string_scope.

(** ** Data model *)

(** A site is identified by its primary key. *)
Definition Site := Z.

(** The principal: [user.is_superuser], [user.is_staff],
    [user.is_authenticated()] and the Django permission codes the user holds. *)
Record User := {
  username : string;
  is_superuser : bool;
  is_staff : bool;
  is_authenticated : bool;
  user_permissions : list string
}.

(** [user.has_perm(code)] and [user.has_perms(codes)]: the latter holds when
    every code of the list is held. *)
Definition has_perm (user : User) (code : string) : bool :=
  bool_decide (code ∈ user_permissions user).

Definition has_perms (user : User) (codes : list string) : bool :=
  forallb (has_perm user) codes.

(** A page row.  [publisher_public_id] is a nullable foreign key; on a
    published page it points at the draft. *)
Record Page := {
  pk : Z;
  publisher_is_draft : bool;
  publisher_public_id : option Z;
  site : Site;
  languages : list string
}.

(** [page.get_languages()] *)
Definition get_languages (page : Page) : list string := languages page.

(** A placeholder row: the pages it is attached to and the language of each
    plugin it holds. *)
Record Placeholder := {
  placeholder_pk : Z;
  placeholder_pages : list Z;
  cmsplugin_languages : list string
}.

(** The value of the [get_*_id_list] family: the marker
    [GRANT_ALL_PERMISSIONS] or a list of page ids. *)
Inductive GrantSet :=
| GRANT_ALL_PERMISSIONS
| PageIds (page_ids : list Z).

(** [page_ids == GRANT_ALL_PERMISSIONS or page_id in page_ids]; a null
    [page_id] is in no list of ids. *)
Definition grants (page_ids : GrantSet) (page_id : option Z) : bool :=
  match page_ids with
  | GRANT_ALL_PERMISSIONS => true
  | PageIds ids =>
      match page_id with
      | Some i => bool_decide (i ∈ ids)
      | None => false
      end
  end.

(** ** Collaborators

    Everything the module imports and only calls: settings, the current
    site, the role tables, the page and placeholder tables. *)
Record World := {
  (** [get_cms_setting('PERMISSION')] *)
  PERMISSION : bool;
  (** [get_cms_setting('PUBLIC_FOR')] *)
  PUBLIC_FOR : string;
  (** [Site.objects.get_current()] *)
  current_site : Site;
  (** [has_global_permission(user, site, action=action)] *)
  global_permission : User -> Site -> string -> bool;
  (** [get_page_actions_for_user(user, site)[action]], as a list *)
  page_actions_for_user : User -> Site -> string -> list Z;
  (** [page.publisher_draft] *)
  publisher_draft : Page -> Page;
  (** [page.has_view_restrictions()] *)
  has_view_restrictions : Page -> bool;
  (** the rows of [Placeholder.objects] *)
  Placeholder_objects : list Placeholder;
  (** [placeholder.has_delete_plugins_permission(user, languages)] *)
  delete_plugins_permission : Placeholder -> User -> list string -> bool
}.

(** ** Effects *)

(** Calls that leave the module, in the order they are made. *)
Inductive Event :=
| EvCacheGet (name action : string)
| EvCacheSet (name action : string) (page_ids : list Z)
| EvHasGlobalPermission (user : User) (s : Site) (action : string)
| EvGetPageActions (user : User) (s : Site)
| EvHasDeletePlugins (placeholder : Placeholder) (user : User)
    (langs : list string).

(** The permission cache, keyed by principal and action, and the trace. *)
Record State := {
  cache : gmap (string * string) GrantSet;
  trace : list Event
}.

Definition emit (e : Event) (st : State) : State :=
  {| cache := cache st; trace := trace st ++ [e] |}.

Inductive Exception :=
| KeyError (key : string).

Inductive Outcome (A : Type) :=
| Return (a : A) (st : State)
| Raise (e : Exception) (st : State).
Arguments Return {A} a st.
Arguments Raise {A} e st.

Definition M (A : Type) : Type := State -> Outcome A.

Definition ret {A} (a : A) : M A := fun st => Return a st.

Definition bind {A B} (m : M A) (f : A -> M B) : M B := fun st =>
  match m st with
  | Return a st' => f a st'
  | Raise e st' => Raise e st'
  end.

Notation "'let*' x ':=' m 'in' k" := (bind m (fun x => k))
  (at level 10, x name, m at level 100, k at level 200).
Notation "m ';;' k" := (bind m (fun _ => k))
  (at level 100, k at level 200, right associativity).

Definition raise {A} (e : Exception) : M A := fun st => Raise e st.

Definition log (e : Event) : M unit := fun st => Return tt (emit e st).

(** [d[key]] on a dictionary literal. *)
Definition getitem {V} (d : gmap string V) (key : string) : M V :=
  match d !! key with
  | Some v => ret v
  | None => raise (KeyError key)
  end.

(** Modelled from the spec: [cms.cache.permissions.get_permission_cache],
    the read of the key-value store by (principal, action); absent entries
    read as [None]. *)
Definition get_permission_cache (user : User) (action : string)
  : M (option GrantSet) := fun st =>
  Return (cache st !! (username user, action))
         (emit (EvCacheGet (username user) action) st).

(** Modelled from the spec: [cms.cache.permissions.set_permission_cache],
    the write of the key-value store by (principal, action). *)
Definition set_permission_cache (user : User) (action : string)
    (page_ids : list Z) : M unit := fun st =>
  Return tt
    {| cache := <[(username user, action) := PageIds page_ids]> (cache st);
       trace := trace st ++ [EvCacheSet (username user) action page_ids] |}.

(** Modelled from the spec: [cms.utils.permissions.cached_func], the
    memoisation of a decision for the duration of one evaluation pass.  A
    pass starts with nothing memoised, so the decorated function is the
    function itself. *)
Definition cached_func {A} (func : User -> A -> M bool) : User -> A -> M bool :=
  func.

(** Modelled from the spec: [get_model_permission_codename(Page, action)],
    the Django permission code of an action on the page model. *)
Definition get_model_permission_codename (action : string) : string :=
  "cms." ++ action ++ "_page".

Definition PAGE_ADD_CODENAME := get_model_permission_codename "add".
Definition PAGE_CHANGE_CODENAME := get_model_permission_codename "change".
Definition PAGE_DELETE_CODENAME := get_model_permission_codename "delete".
Definition PAGE_PUBLISH_CODENAME := get_model_permission_codename "publish".
Definition PAGE_VIEW_CODENAME := get_model_permission_codename "view".

(** Maps an action to the required Django auth permission codes. *)
Definition _django_permissions_by_action : gmap string (list string) :=
  list_to_map [
    ("add_page", [PAGE_ADD_CODENAME; PAGE_CHANGE_CODENAME]);
    ("change_page", [PAGE_CHANGE_CODENAME]);
    ("change_page_advanced_settings", [PAGE_CHANGE_CODENAME]);
    ("change_page_permissions", [PAGE_CHANGE_CODENAME]);
    ("delete_page", [PAGE_CHANGE_CODENAME; PAGE_DELETE_CODENAME]);
    ("delete_page_translation", [PAGE_CHANGE_CODENAME; PAGE_DELETE_CODENAME]);
    ("move_page", [PAGE_CHANGE_CODENAME]);
    ("publish_page", [PAGE_CHANGE_CODENAME; PAGE_PUBLISH_CODENAME]);
    ("recover_page", [PAGE_ADD_CODENAME; PAGE_CHANGE_CODENAME])
  ].

Section Permissions.

Variable W : World.

(** [cms.utils.permissions.has_global_permission(user, site, action=action)],
    taken from the world; the call is recorded in the trace. *)
Definition has_global_permission (user : User) (s : Site) (action : string)
  : M bool :=
  log (EvHasGlobalPermission user s action);;
  ret (global_permission W user s action).

(** [cms.utils.permissions.get_page_actions_for_user(user, site)], taken
    from the world; the result is indexed by action and the call is recorded
    in the trace. *)
Definition get_page_actions_for_user (user : User) (s : Site)
  : M (string -> list Z) :=
  log (EvGetPageActions user s);;
  ret (page_actions_for_user W user s).

(** [placeholder.has_delete_plugins_permission(user, languages)], taken
    from the world; the call is recorded in the trace. *)
Definition has_delete_plugins_permission (placeholder : Placeholder)
    (user : User) (langs : list string) : M bool :=
  log (EvHasDeletePlugins placeholder user langs);;
  ret (delete_plugins_permission W placeholder user langs).

(** Modelled from the spec: [cms.api.get_page_draft], the resolution of a
    page to its draft. *)
Definition get_page_draft (page : Page) : Page :=
  if publisher_is_draft page then page else publisher_draft W page.

(** [Placeholder.objects.filter(page__pk=page_id)]; a null id selects the
    placeholders attached to no page. *)
Definition filter_page_pk (page_id : option Z) : list Placeholder :=
  match page_id with
  | Some i =>
      List.filter (fun ph => bool_decide (i ∈ placeholder_pages ph))
        (Placeholder_objects W)
  | None =>
      List.filter (fun ph => bool_decide (placeholder_pages ph = []))
        (Placeholder_objects W)
  end.

Definition _get_draft_placeholders (page : Page) : list Placeholder :=
  if publisher_is_draft page then
    (* page.placeholders.all() *)
    filter_page_pk (Some (pk page))
  else
    filter_page_pk (publisher_public_id page).

Definition _get_page_ids_for_action (user : User) (s : Site)
    (action : string) (check_global : bool) : M GrantSet :=
  if is_superuser user || negb (PERMISSION W) then
    ret GRANT_ALL_PERMISSIONS
  else
    let* cached := get_permission_cache user action in
    match cached with
    | Some page_ids => ret page_ids
    | None =>
        let* is_global := (if check_global return M bool
                     then has_global_permission user s action
                     else ret false) in
        if is_global then ret GRANT_ALL_PERMISSIONS
        else
          let* page_actions := get_page_actions_for_user user s in
          let page_ids := page_actions action in
          set_permission_cache user action page_ids;;
          ret (PageIds page_ids)
    end.

(** The decorator: [permission_pre_checks(action)(func)] is the wrapper
    below; [args] stands for the arguments after [user]. *)
Definition permission_pre_checks {A} (action : string)
    (func : User -> A -> M bool) (user : User) (args : A) : M bool :=
  if negb (is_authenticated user) then ret false
  else if is_superuser user then ret true
  else
    let* permissions := getitem _django_permissions_by_action action in
    if negb (has_perms user permissions) then
      (* Fail fast if the user does not have permissions
         in Django to perform the action. *)
      ret false
    else if negb (PERMISSION W) then ret true
    else func user args.

Definition get_add_id_list (user : User) (s : Site) (check_global : bool)
  : M GrantSet :=
  _get_page_ids_for_action user s "add_page" check_global.

Definition get_change_id_list (user : User) (s : Site) (check_global : bool)
  : M GrantSet :=
  _get_page_ids_for_action user s "change_page" check_global.

Definition get_change_advanced_settings_id_list (user : User) (s : Site)
    (check_global : bool) : M GrantSet :=
  _get_page_ids_for_action user s "change_page_advanced_settings" check_global.

Definition get_change_permissions_id_list (user : User) (s : Site)
    (check_global : bool) : M GrantSet :=
  _get_page_ids_for_action user s "change_page_permissions" check_global.

Definition get_delete_id_list (user : User) (s : Site) (check_global : bool)
  : M GrantSet :=
  _get_page_ids_for_action user s "delete_page" check_global.

Definition get_move_page_id_list (user : User) (s : Site)
    (check_global : bool) : M GrantSet :=
  _get_page_ids_for_action user s "move_page" check_global.

Definition get_publish_id_list (user : User) (s : Site) (check_global : bool)
  : M GrantSet :=
  _get_page_ids_for_action user s "publish_page" check_global.

Definition get_view_id_list (user : User) (s : Site) (check_global : bool)
  : M GrantSet :=
  _get_page_ids_for_action user s "view_page" check_global.

(** The dictionary built inside [has_generic_permission]. *)
Definition actions_map : gmap string (User -> Site -> bool -> M GrantSet) :=
  list_to_map [
    ("add_page", get_add_id_list);
    ("change_page", get_change_id_list);
    ("change_page_advanced_settings", get_change_advanced_settings_id_list);
    ("change_page_permissions", get_change_permissions_id_list);
    ("delete_page", get_delete_id_list);
    ("delete_page_translation", get_delete_id_list);
    ("move_page", get_move_page_id_list);
    ("publish_page", get_publish_id_list);
    ("view_page", get_view_id_list)
  ].

(** The identity a grant set is tested against. *)
Definition permission_page_id (page : Page) : option Z :=
  if publisher_is_draft page then Some (pk page)
  else publisher_public_id page.

Definition has_generic_permission (page : Page) (user : User)
    (action : string) (opt_site : option Site) (check_global : bool)
  : M bool :=
  let s := match opt_site with Some s => s | None => site page end in
  let page_id := permission_page_id page in
  let* func := getitem actions_map action in
  let* page_ids := func user s check_global in
  ret (grants page_ids page_id).

(** The loop [for placeholder in placeholders.iterator()] of the two delete
    rules. *)
Fixpoint for_placeholders (user : User) (langs : list string)
    (placeholders : list Placeholder) : M bool :=
  match placeholders with
  | [] => ret true
  | placeholder :: rest =>
      let* ok := has_delete_plugins_permission placeholder user langs in
      if negb ok then ret false
      else for_placeholders user langs rest
  end.

(** [.filter(cmsplugin__language__in=languages).distinct()] *)
Definition filter_language_in (langs : list string)
    (placeholders : list Placeholder) : list Placeholder :=
  List.filter
    (fun ph => existsb (fun l => bool_decide (l ∈ langs))
                 (cmsplugin_languages ph))
    placeholders.

(** [.filter(cmsplugin__language=language).distinct()] *)
Definition filter_language (language : string)
    (placeholders : list Placeholder) : list Placeholder :=
  List.filter
    (fun ph => existsb (fun l => bool_decide (l = language))
                 (cmsplugin_languages ph))
    placeholders.

Definition user_can_add_page : User -> option Site -> M bool :=
  permission_pre_checks "add_page" (cached_func (fun user opt_site =>
    let s := match opt_site with
             | Some s => s
             | None => current_site W
             end in
    has_global_permission user s "add_page")).

Definition user_can_add_subpage : User -> Page * option Site -> M bool :=
  permission_pre_checks "add_page" (cached_func (fun user '(target, opt_site) =>
    let* has_perm := has_generic_permission target user "add_page"
                       opt_site true in
    ret has_perm)).

Definition user_can_change_page : User -> Page -> M bool :=
  permission_pre_checks "change_page" (cached_func (fun user page =>
    let* has_perm := has_generic_permission page user "change_page"
                       None true in
    ret has_perm)).

Definition user_can_delete_page : User -> Page -> M bool :=
  permission_pre_checks "delete_page" (cached_func (fun user page =>
    let* has_perm := has_generic_permission page user "delete_page"
                       None true in
    if negb has_perm then ret false
    else
      let langs := get_languages page in
      let placeholders :=
        filter_language_in langs (_get_draft_placeholders page) in
      for_placeholders user langs placeholders)).

Definition user_can_delete_page_translation
  : User -> Page * string -> M bool :=
  permission_pre_checks "delete_page_translation"
    (cached_func (fun user '(page, language) =>
    let* has_perm := has_generic_permission page user
                       "delete_page_translation" None true in
    if negb has_perm then ret false
    else
      let placeholders :=
        filter_language language (_get_draft_placeholders page) in
      for_placeholders user [language] placeholders)).

Definition user_can_publish_page : User -> Page -> M bool :=
  permission_pre_checks "publish_page" (cached_func (fun user page =>
    let* has_perm := has_generic_permission page user "publish_page"
                       None true in
    ret has_perm)).

Definition user_can_change_page_advanced_settings : User -> Page -> M bool :=
  permission_pre_checks "change_page_advanced_settings"
    (cached_func (fun user page =>
    let* has_perm := has_generic_permission page user
                       "change_page_advanced_settings" None true in
    ret has_perm)).

Definition user_can_change_page_permissions : User -> Page -> M bool :=
  permission_pre_checks "change_page_permissions"
    (cached_func (fun user page =>
    let* has_perm := has_generic_permission page user
                       "change_page_permissions" None true in
    ret has_perm)).

Definition user_can_move_page : User -> Page -> M bool :=
  permission_pre_checks "move_page" (cached_func (fun user page =>
    let* has_perm := has_generic_permission page user "move_page"
                       None true in
    ret has_perm)).

(** [public_for == 'all' or (public_for == 'staff' and user.is_staff)] *)
Definition can_see_unrestricted (user : User) : bool :=
  let public_for := PUBLIC_FOR W in
  String.eqb public_for "all"
  || (String.eqb public_for "staff" && is_staff user).

Definition user_can_view_all_pages : User -> Site -> M bool :=
  cached_func (fun user s =>
    if is_superuser user then ret true
    else if negb (PERMISSION W) then ret (can_see_unrestricted user)
    else if negb (is_authenticated user) then ret false
    else if has_perm user PAGE_VIEW_CODENAME then
      (* This is for backwards compatibility.
         The previous system allowed any user with the explicit view_page
         permission to see all pages. *)
      ret true
    else has_global_permission user s "view_page").

Definition user_can_view_page : User -> Page -> M bool :=
  cached_func (fun user page =>
    if is_superuser user then ret true
    else
      let page := get_page_draft page in
      (* inherited and direct view permissions *)
      let is_restricted := has_view_restrictions W page in
      if negb is_restricted && can_see_unrestricted user then
        (* Page has no restrictions and project is configured
           to allow everyone to see unrestricted pages. *)
        ret true
      else if negb (is_authenticated user) then
        (* Page has restrictions or project is configured
           to require staff user status to see pages. *)
        ret false
      else
        let* view_all := user_can_view_all_pages user (site page) in
        if view_all then ret true
        else if negb is_restricted then
          (* Page has no restrictions but user can't see unrestricted pages *)
          ret false
        else
          let* has_perm := has_generic_permission page user "view_page"
                             None false in
          ret has_perm).

Definition user_can_change_all_pages : User -> Site -> M bool :=
  permission_pre_checks "change_page" (cached_func (fun user s =>
    has_global_permission user s "change_page")).

Definition user_can_recover_any_page : User -> Site -> M bool :=
  permission_pre_checks "recover_page" (cached_func (fun user s =>
    has_global_permission user s "recover_page")).

End Permissions.

(** ** The public decision functions, as one family

    A value of [Decision] names one public function together with the
    arguments after [user]; [decide_permission] calls it. *)
Inductive Decision :=
| CanAddPage (opt_site : option Site)
| CanAddSubpage (target : Page) (opt_site : option Site)
| CanChangePage (page : Page)
| CanDeletePage (page : Page)
| CanDeletePageTranslation (page : Page) (language : string)
| CanPublishPage (page : Page)
| CanChangePageAdvancedSettings (page : Page)
| CanChangePagePermissions (page : Page)
| CanMovePage (page : Page)
| CanViewPage (page : Page)
| CanChangeAllPages (s : Site)
| CanRecoverAnyPage (s : Site)
| CanViewAllPages (s : Site).

Definition decide_permission (W : World) (user : User) (d : Decision)
  : M bool :=
  match d with
  | CanAddPage opt_site => user_can_add_page W user opt_site
  | CanAddSubpage target opt_site =>
      user_can_add_subpage W user (target, opt_site)
  | CanChangePage page => user_can_change_page W user page
  | CanDeletePage page => user_can_delete_page W user page
  | CanDeletePageTranslation page language =>
      user_can_delete_page_translation W user (page, language)
  | CanPublishPage page => user_can_publish_page W user page
  | CanChangePageAdvancedSettings page =>
      user_can_change_page_advanced_settings W user page
  | CanChangePagePermissions page =>
      user_can_change_page_permissions W user page
  | CanMovePage page => user_can_move_page W user page
  | CanViewPage page => user_can_view_page W user page
  | CanChangeAllPages s => user_can_change_all_pages W user s
  | CanRecoverAnyPage s => user_can_recover_any_page W user s
  | CanViewAllPages s => user_can_view_all_pages W user s
  end.

(** The action a decision is decorated with by [permission_pre_checks];
    the two view decisions carry no decorator. *)
Definition pre_check_action (d : Decision) : option string :=
  match d with
  | CanAddPage _ | CanAddSubpage _ _ => Some "add_page"
  | CanChangePage _ | CanChangeAllPages _ => Some "change_page"
  | CanDeletePage _ => Some "delete_page"
  | CanDeletePageTranslation _ _ => Some "delete_page_translation"
  | CanPublishPage _ => Some "publish_page"
  | CanChangePageAdvancedSettings _ => Some "change_page_advanced_settings"
  | CanChangePagePermissions _ => Some "change_page_permissions"
  | CanMovePage _ => Some "move_page"
  | CanRecoverAnyPage _ => Some "recover_page"
  | CanViewPage _ | CanViewAllPages _ => None
  end.

(** The same decision asked about another page; decisions about a site
    have no page to replace. *)
Definition on_page (d : Decision) (page : Page) : Decision :=
  match d with
  | CanAddSubpage _ opt_site => CanAddSubpage page opt_site
  | CanChangePage _ => CanChangePage page
  | CanDeletePage _ => CanDeletePage page
  | CanDeletePageTranslation _ language =>
      CanDeletePageTranslation page language
  | CanPublishPage _ => CanPublishPage page
  | CanChangePageAdvancedSettings _ => CanChangePageAdvancedSettings page
  | CanChangePagePermissions _ => CanChangePagePermissions page
  | CanMovePage _ => CanMovePage page
  | CanViewPage _ => CanViewPage page
  | CanAddPage _ | CanChangeAllPages _ | CanRecoverAnyPage _
  | CanViewAllPages _ => d
  end.

(** The events of a run: what the trace gained. *)
Definition no_global_check (events : list Event) : Prop :=
  ∀ user s action, EvHasGlobalPermission user s action ∉ events.

(** ** Sample data *)
Module Sample.

Definition anonymous : User :=
  {| username := ""; is_superuser := false; is_staff := false;
     is_authenticated := false; user_permissions := [] |}.

Definition root : User :=
  {| username := "root"; is_superuser := true; is_staff := true;
     is_authenticated := true; user_permissions := [] |}.

(** An editor holding every page permission code. *)
Definition editor : User :=
  {| username := "editor"; is_superuser := false; is_staff := false;
     is_authenticated := true;
     user_permissions :=
       [PAGE_ADD_CODENAME; PAGE_CHANGE_CODENAME; PAGE_DELETE_CODENAME;
        PAGE_PUBLISH_CODENAME; PAGE_VIEW_CODENAME] |}.

(** An authenticated user holding no permission code. *)
Definition visitor : User :=
  {| username := "visitor"; is_superuser := false; is_staff := false;
     is_authenticated := true; user_permissions := [] |}.

(** A draft with an English and a German translation, and its published
    counterpart, on which only English is published. *)
Definition draft : Page :=
  {| pk := 1; publisher_is_draft := true; publisher_public_id := Some 2;
     site := 1; languages := ["de"; "en"] |}.

Definition published : Page :=
  {| pk := 2; publisher_is_draft := false; publisher_public_id := Some 1;
     site := 1; languages := ["en"] |}.

(** The published counterpart once both translations are published. *)
Definition republished : Page :=
  {| pk := 2; publisher_is_draft := false; publisher_public_id := Some 1;
     site := 1; languages := ["de"; "en"] |}.

(** A placeholder of the draft holding one German plugin. *)
Definition body : Placeholder :=
  {| placeholder_pk := 10; placeholder_pages := [1];
     cmsplugin_languages := ["de"] |}.

Definition world (permission : bool) (public_for : string)
    (restricted : bool) (may_delete_plugins : bool) : World :=
  {| PERMISSION := permission;
     PUBLIC_FOR := public_for;
     current_site := 1;
     global_permission := fun _ _ _ => false;
     page_actions_for_user := fun _ _ action =>
       if String.eqb action "delete_page" then [1] else [];
     publisher_draft := fun _ => draft;
     has_view_restrictions := fun _ => restricted;
     Placeholder_objects := [body];
     delete_plugins_permission := fun _ _ _ => may_delete_plugins |}.

(** A world whose collaborators grant everything. *)
Definition granting_world : World :=
  {| PERMISSION := true;
     PUBLIC_FOR := "all";
     current_site := 1;
     global_permission := fun _ _ _ => true;
     page_actions_for_user := fun _ _ _ => [1];
     publisher_draft := fun _ => draft;
     has_view_restrictions := fun _ => false;
     Placeholder_objects := [];
     delete_plugins_permission := fun _ _ _ => true |}.

Definition empty_state : State := {| cache := ∅; trace := [] |}.

(** A page in one language, and the placeholder holding its plugin. *)
Definition leaflet : Page :=
  {| pk := 5; publisher_is_draft := true; publisher_public_id := None;
     site := 1; languages := ["en"] |}.

Definition leaflet_body : Placeholder :=
  {| placeholder_pk := 11; placeholder_pages := [5];
     cmsplugin_languages := ["en"] |}.

(** A page without translations. *)
Definition blank : Page :=
  {| pk := 6; publisher_is_draft := true; publisher_public_id := None;
     site := 1; languages := [] |}.

(** A reader: authenticated, holding no permission code. *)
Definition reader : User :=
  {| username := "reader"; is_superuser := false; is_staff := false;
     is_authenticated := true; user_permissions := [] |}.

(** A world with the permission subsystem enabled in which the editor
    holds the global grants of site 1 and, page by page, the grants on
    page 5; the reader may view page 5. *)
Definition newsroom : World :=
  {| PERMISSION := true;
     PUBLIC_FOR := "staff";
     current_site := 1;
     global_permission := fun user s _ =>
       String.eqb (username user) "editor" && Z.eqb s 1;
     page_actions_for_user := fun user _ action =>
       if String.eqb (username user) "reader"
       then (if String.eqb action "view_page" then [5] else [])
       else [5];
     publisher_draft := fun _ => draft;
     has_view_restrictions := fun _ => true;
     Placeholder_objects := [body; leaflet_body];
     delete_plugins_permission := fun _ _ _ => true |}.

End Sample.

(** ** Vocabulary for what a run leaves behind *)

(** The cache key a key of [actions_map] resolves through: the getter of
    'delete_page_translation' is [get_delete_id_list]. *)
Definition resolved_action (action : string) : string :=
  if String.eqb action "delete_page_translation" then "delete_page"
  else action.

(** [st'] comes after [st] in a run on behalf of the user called [name]:
    every cache entry of [st] is still there, the entries of other users are
    as they were, and the trace was only added to. *)
Definition grows (name : string) (st st' : State) : Prop :=
  (∀ key page_ids,
     cache st !! key = Some page_ids -> cache st' !! key = Some page_ids)
  ∧ (∀ key, key.1 ≠ name -> cache st' !! key = cache st !! key)
  ∧ ∃ events : list Event, trace st' = (trace st ++ events)%list.

(** A computation that returns from every state, leaving a state that
    comes after the one it started in. *)
Definition safe (name : string) {A} (m : M A) : Prop :=
  ∀ st, ∃ a st', m st = Return a st' ∧ grows name st st'.

(** The number of calls of [has_global_permission] among some events. *)
Definition global_checks (events : list Event) : nat :=
  length (List.filter
            (fun e => match e with
                      | EvHasGlobalPermission _ _ _ => true
                      | _ => false
                      end)
            events).

(** The page decisions whose body is one call of [has_global_permission]
    or none of the resolver: the ones asked about a site. *)
Definition about_site (d : Decision) : bool :=
  match d with
  | CanAddPage _ | CanChangeAllPages _ | CanRecoverAnyPage _
  | CanViewAllPages _ => true
  | _ => false
  end.

(** The decisions whose body is nothing but [has_generic_permission] for
    one action: the page, the action and the site argument of that call. *)
Definition plain_gate (d : Decision)
  : option (Page * string * option Site) :=
  match d with
  | CanAddSubpage target opt_site => Some (target, "add_page", opt_site)
  | CanChangePage page => Some (page, "change_page", None)
  | CanPublishPage page => Some (page, "publish_page", None)
  | CanChangePageAdvancedSettings page =>
      Some (page, "change_page_advanced_settings", None)
  | CanChangePagePermissions page =>
      Some (page, "change_page_permissions", None)
  | CanMovePage page => Some (page, "move_page", None)
  | _ => None
  end.

(** The value a run returned, if it returned. *)
Definition returned {A} (o : Outcome A) : option A :=
  match o with
  | Return a _ => Some a
  | Raise _ _ => None
  end.

(** The state a run ended in. *)
Definition final_state {A} (o : Outcome A) : State :=
  match o with
  | Return _ st => st
  | Raise _ st => st
  end.

(** * Properties *)

(** ** The monad and the two dictionaries *)

Lemma bind_Return {A B} (m : M A) (f : A -> M B) st a st' :
  m st = Return a st' -> bind m f st = f a st'.
Proof. unfold bind. now intros ->. Qed.

Lemma bind_Raise {A B} (m : M A) (f : A -> M B) st e st' :
  m st = Raise e st' -> bind m f st = Raise e st'.
Proof. unfold bind. now intros ->. Qed.

Lemma getitem_Some {V} (d : gmap string V) key v st :
  d !! key = Some v -> getitem d key st = Return v st.
Proof. unfold getitem. now intros ->. Qed.

Lemma getitem_None {V} (d : gmap string V) key st :
  d !! key = None -> getitem d key st = Raise (KeyError key) st.
Proof. unfold getitem. now intros ->. Qed.

(** The keys of [actions_map], each with the action its getter resolves. *)
Lemma actions_map_inv W action getter :
  actions_map W !! action = Some getter ->
  ∃ resolved,
    getter = (fun user s check_global =>
                _get_page_ids_for_action W user s resolved check_global)
    ∧ (resolved = action
       ∨ (action = "delete_page_translation" ∧ resolved = "delete_page")).
Proof.
  intros H. apply elem_of_list_to_map_2 in H.
  repeat (apply elem_of_cons in H as [H | H];
          [injection H as -> ->; eexists; split; [reflexivity | auto] |]).
  now apply elem_of_nil in H.
Qed.

(** The keys of [_django_permissions_by_action]. *)
Lemma django_permissions_inv action permissions :
  _django_permissions_by_action !! action = Some permissions ->
  action ∈ ["add_page"; "change_page"; "change_page_advanced_settings";
            "change_page_permissions"; "delete_page";
            "delete_page_translation"; "move_page"; "publish_page";
            "recover_page"].
Proof.
  intros H. apply elem_of_list_to_map_2 in H.
  repeat (apply elem_of_cons in H as [H | H];
          [injection H as -> _; set_solver |]).
  now apply elem_of_nil in H.
Qed.

(** Every decorated decision is decorated with a key of the table. *)
Lemma pre_check_action_in_table d action :
  pre_check_action d = Some action ->
  is_Some (_django_permissions_by_action !! action).
Proof.
  destruct d; simpl; intros [= <-]; eexists; reflexivity.
Qed.

(** Every key of the table decorates a decision. *)
Lemma table_action_decorates action (page : Page) (s : Site) :
  is_Some (_django_permissions_by_action !! action) ->
  ∃ d, pre_check_action d = Some action.
Proof.
  intros [permissions Htable].
  apply django_permissions_inv in Htable.
  repeat (apply elem_of_cons in Htable as [-> | Htable]);
    [exists (CanAddPage None) | exists (CanChangePage page)
    | exists (CanChangePageAdvancedSettings page)
    | exists (CanChangePagePermissions page) | exists (CanDeletePage page)
    | exists (CanDeletePageTranslation page "en") | exists (CanMovePage page)
    | exists (CanPublishPage page) | exists (CanRecoverAnyPage s) |];
    try reflexivity.
  now apply elem_of_nil in Htable.
Qed.

(** ** The grant-set resolver *)

(** The resolver never raises. *)
Lemma get_page_ids_for_action_returns W user s action check_global st :
  ∃ page_ids st',
    _get_page_ids_for_action W user s action check_global st
    = Return page_ids st'.
Proof.
  unfold _get_page_ids_for_action.
  destruct (is_superuser user || negb (PERMISSION W)); [now eauto |].
  unfold bind, get_permission_cache.
  destruct (cache st !! (username user, action)); [now eauto |].
  destruct check_global; simpl;
    [destruct (global_permission W user s action) |]; simpl; eauto.
Qed.

(** C3. [_get_page_ids_for_action] takes its four exits in order: for a
    superuser or a disabled permission subsystem the marker is returned and
    neither cache nor trace changes; otherwise an entry cached for
    (user, action) is returned as it is after the one cache read; otherwise,
    when [check_global] is set and the user holds the global grant, the
    marker is returned and the cache is left as it was; otherwise the ids
    reported by the tree aggregation are written to the cache and
    returned. *)
Theorem get_page_ids_for_action_order W user s action check_global st :
  let key := (username user, action) in
  let read := EvCacheGet (username user) action in
  let ids := page_actions_for_user W user s action in
  (is_superuser user = true ∨ PERMISSION W = false ->
     _get_page_ids_for_action W user s action check_global st
     = Return GRANT_ALL_PERMISSIONS st)
  ∧ (is_superuser user = false -> PERMISSION W = true ->
     ∀ cached, cache st !! key = Some cached ->
       _get_page_ids_for_action W user s action check_global st
       = Return cached {| cache := cache st; trace := trace st ++ [read] |})
  ∧ (is_superuser user = false -> PERMISSION W = true ->
     cache st !! key = None ->
     check_global = true -> global_permission W user s action = true ->
       _get_page_ids_for_action W user s action check_global st
       = Return GRANT_ALL_PERMISSIONS
           {| cache := cache st;
              trace := (trace st ++ [read])
                       ++ [EvHasGlobalPermission user s action] |})
  ∧ (is_superuser user = false -> PERMISSION W = true ->
     cache st !! key = None ->
     check_global = false ∨ global_permission W user s action = false ->
       _get_page_ids_for_action W user s action check_global st
       = Return (PageIds ids)
           {| cache := <[key := PageIds ids]> (cache st);
              trace := (((trace st ++ [read])
                         ++ (if check_global
                             then [EvHasGlobalPermission user s action]
                             else []))
                        ++ [EvGetPageActions user s])
                       ++ [EvCacheSet (username user) action ids] |}).
Proof.
  intros key read ids. unfold _get_page_ids_for_action.
  repeat split.
  - intros [-> | ->]; [reflexivity |].
    now rewrite orb_true_r.
  - intros -> -> cached Hc. simpl.
    unfold bind, get_permission_cache. fold key. now rewrite Hc.
  - intros -> -> Hc -> Hg. simpl.
    unfold bind, get_permission_cache, has_global_permission, bind, log.
    fold key. rewrite Hc. simpl. now rewrite Hg.
  - intros -> -> Hc Hg. simpl.
    unfold bind, get_permission_cache. fold key. rewrite Hc.
    destruct check_global.
    + destruct Hg as [Hg | Hg]; [discriminate |].
      unfold has_global_permission, bind, log. simpl. rewrite Hg.
      reflexivity.
    + simpl. rewrite app_nil_r. reflexivity.
Qed.

Lemma get_page_ids_for_action_order_witness :
  _get_page_ids_for_action (Sample.world true "all" false false)
    Sample.editor 1 "delete_page" true Sample.empty_state
  = Return (PageIds [1])
      {| cache := <[("editor", "delete_page") := PageIds [1]]> ∅;
         trace := [EvCacheGet "editor" "delete_page";
                   EvHasGlobalPermission Sample.editor 1 "delete_page";
                   EvGetPageActions Sample.editor 1;
                   EvCacheSet "editor" "delete_page" [1]] |}.
Proof.
  apply (get_page_ids_for_action_order (Sample.world true "all" false false)
           Sample.editor 1 "delete_page" true Sample.empty_state);
    solve [reflexivity | right; reflexivity].
Defined.

(** C1. For an action of the dispatch table, [has_generic_permission]
    returns, and it returns true exactly when the grant set its getter
    produced is the marker or contains the identity of the page: the pk of
    a draft, the [publisher_public_id] of a published page. *)
Theorem has_generic_permission_iff_granted
    W page user action opt_site check_global getter st :
  actions_map W !! action = Some getter ->
  let s := match opt_site with Some s => s | None => site page end in
  let page_id := if publisher_is_draft page then Some (pk page)
                 else publisher_public_id page in
  ∃ page_ids st' b,
    getter user s check_global st = Return page_ids st'
    ∧ has_generic_permission W page user action opt_site check_global st
      = Return b st'
    ∧ (b = true ↔
       page_ids = GRANT_ALL_PERMISSIONS
       ∨ ∃ i ids, page_ids = PageIds ids ∧ page_id = Some i ∧ i ∈ ids).
Proof.
  intros Hget s page_id.
  destruct (actions_map_inv _ _ _ Hget) as (resolved & Hgetter & _).
  destruct (get_page_ids_for_action_returns W user s resolved check_global st)
    as (page_ids & st' & Hrun).
  exists page_ids, st', (grants page_ids page_id).
  assert (Hg : getter user s check_global st = Return page_ids st')
    by now rewrite Hgetter.
  split; [exact Hg |]. split.
  - unfold has_generic_permission.
    rewrite (bind_Return _ _ _ _ _ (getitem_Some _ _ _ st Hget)).
    fold s. now rewrite (bind_Return _ _ _ _ _ Hg).
  - unfold grants. destruct page_ids as [| ids].
    + split; auto.
    + destruct page_id as [i |].
      * rewrite bool_decide_eq_true. split.
        -- intros Hi. right. now exists i, ids.
        -- intros [? | (i' & ids' & [= <-] & [= <-] & Hi)];
             [discriminate | exact Hi].
      * split; [discriminate |].
        intros [? | (i' & ids' & _ & ? & _)]; discriminate.
Qed.

Lemma has_generic_permission_iff_granted_witness :
  ∃ page_ids st' b,
    get_delete_id_list (Sample.world true "all" false false)
      Sample.editor 1 true Sample.empty_state = Return page_ids st'
    ∧ has_generic_permission (Sample.world true "all" false false)
        Sample.published Sample.editor "delete_page_translation" None true
        Sample.empty_state = Return b st'
    ∧ (b = true ↔
       page_ids = GRANT_ALL_PERMISSIONS
       ∨ ∃ i ids, page_ids = PageIds ids ∧ Some 1 = Some i ∧ i ∈ ids).
Proof.
  apply (has_generic_permission_iff_granted
           (Sample.world true "all" false false) Sample.published
           Sample.editor "delete_page_translation" None true
           (get_delete_id_list (Sample.world true "all" false false))
           Sample.empty_state).
  reflexivity.
Defined.

(** ** The coarse pre-check *)

Lemma has_perms_false user permissions code :
  code ∈ permissions -> has_perm user code = false ->
  has_perms user permissions = false.
Proof.
  intros Hin Hcode. unfold has_perms.
  destruct (forallb (has_perm user) permissions) eqn:Hall; [| reflexivity].
  rewrite forallb_forall in Hall.
  apply list_elem_of_In in Hin. rewrite (Hall _ Hin) in Hcode. discriminate.
Qed.

(** The wrapper answers before [func] runs when a required code is
    missing. *)
Lemma pre_checks_missing_code {A} W action (func : User -> A -> M bool)
    user args permissions code st :
  _django_permissions_by_action !! action = Some permissions ->
  is_authenticated user = true -> is_superuser user = false ->
  code ∈ permissions -> has_perm user code = false ->
  permission_pre_checks W action func user args st = Return false st.
Proof.
  intros Htable Hauth Hsu Hin Hcode. unfold permission_pre_checks.
  rewrite Hauth, Hsu. simpl.
  rewrite (bind_Return _ _ _ _ _ (getitem_Some _ _ _ st Htable)).
  now rewrite (has_perms_false _ _ _ Hin Hcode).
Qed.

(** The wrapper answers an unauthenticated user before anything else. *)
Lemma pre_checks_unauthenticated {A} W action (func : User -> A -> M bool)
    user args st :
  is_authenticated user = false ->
  permission_pre_checks W action func user args st = Return false st.
Proof. intros Hauth. unfold permission_pre_checks. now rewrite Hauth. Qed.

(** The wrapper answers true, before [func] runs, when the permission
    subsystem is disabled and the codes are held. *)
Lemma pre_checks_disabled {A} W action (func : User -> A -> M bool)
    user args permissions st :
  _django_permissions_by_action !! action = Some permissions ->
  is_authenticated user = true ->
  has_perms user permissions = true ->
  PERMISSION W = false ->
  permission_pre_checks W action func user args st = Return true st.
Proof.
  intros Htable Hauth Hperms Hoff. unfold permission_pre_checks.
  rewrite Hauth. simpl. destruct (is_superuser user); [reflexivity |].
  rewrite (bind_Return _ _ _ _ _ (getitem_Some _ _ _ st Htable)).
  now rewrite Hperms, Hoff.
Qed.

(** When every check of the wrapper passes, the decision is [func]'s. *)
Lemma pre_checks_fall_through {A} W action (func : User -> A -> M bool)
    user args permissions st :
  _django_permissions_by_action !! action = Some permissions ->
  is_authenticated user = true -> is_superuser user = false ->
  has_perms user permissions = true ->
  PERMISSION W = true ->
  permission_pre_checks W action func user args st = func user args st.
Proof.
  intros Htable Hauth Hsu Hperms Hon. unfold permission_pre_checks.
  rewrite Hauth, Hsu. simpl.
  rewrite (bind_Return _ _ _ _ _ (getitem_Some _ _ _ st Htable)).
  now rewrite Hperms, Hon.
Qed.

(** Every decorated decision is the wrapper around some function. *)
Lemma decorated_decision W d action :
  pre_check_action d = Some action ->
  ∃ (A : Type) (func : User -> A -> M bool) (args : A),
    ∀ user, decide_permission W user d
            = permission_pre_checks W action func user args.
Proof.
  destruct d; simpl; intros [= <-];
    (eexists _, _, _; intros user; reflexivity).
Qed.

(** C7. For a decision decorated with an action of the coarse-capability
    table, an authenticated user who is not a superuser and lacks one of the
    codes the action requires is answered false, and nothing is evaluated on
    the way: the cache and the trace of collaborator calls are left as they
    were, whatever grants the collaborators would report. *)
Theorem missing_code_denies W user d action permissions code st :
  pre_check_action d = Some action ->
  _django_permissions_by_action !! action = Some permissions ->
  is_authenticated user = true -> is_superuser user = false ->
  code ∈ permissions -> has_perm user code = false ->
  decide_permission W user d st = Return false st.
Proof.
  intros Hd Htable Hauth Hsu Hin Hcode.
  destruct (decorated_decision W d action Hd) as (A & func & args & ->).
  now apply pre_checks_missing_code with permissions code.
Qed.

Lemma missing_code_denies_witness :
  decide_permission Sample.granting_world Sample.visitor
    (CanPublishPage Sample.draft) Sample.empty_state
  = Return false Sample.empty_state.
Proof.
  apply (missing_code_denies Sample.granting_world Sample.visitor
           (CanPublishPage Sample.draft) "publish_page"
           [PAGE_CHANGE_CODENAME; PAGE_PUBLISH_CODENAME]
           PAGE_PUBLISH_CODENAME Sample.empty_state);
    solve [reflexivity | apply (bool_decide_unpack _); reflexivity].
Defined.

(** ** The view-visibility rule *)

Lemma bind_ret_r {A} (m : M A) st : bind m ret st = m st.
Proof. unfold bind, ret. now destruct (m st). Qed.

(** [user_can_view_all_pages] never raises. *)
Lemma user_can_view_all_pages_returns W user s st :
  ∃ view_all st', user_can_view_all_pages W user s st = Return view_all st'.
Proof.
  unfold user_can_view_all_pages, cached_func.
  destruct (is_superuser user); [now eauto |].
  destruct (PERMISSION W); simpl; [| now eauto].
  destruct (is_authenticated user); simpl; [| now eauto].
  destruct (has_perm user PAGE_VIEW_CODENAME); now eauto.
Qed.

(** Resolving without the global check never asks for a global grant. *)
Lemma get_page_ids_unchecked_trace W user s action st :
  ∃ events : list Event,
    trace (final_state (_get_page_ids_for_action W user s action false st))
    = (trace st ++ events)%list
    ∧ no_global_check events.
Proof.
  unfold _get_page_ids_for_action.
  destruct (is_superuser user || negb (PERMISSION W)).
  - exists []. split; [now rewrite app_nil_r |].
    intros ? ? ?. apply not_elem_of_nil.
  - unfold bind, get_permission_cache.
    destruct (cache st !! (username user, action)); simpl.
    + eexists. split; [reflexivity |].
      intros ? ? ? Hin. apply list_elem_of_singleton in Hin. discriminate.
    + rewrite <- !app_assoc. eexists. split; [reflexivity |].
      intros ? ? ? Hin. simpl in Hin.
      repeat (apply elem_of_cons in Hin as [Hin | Hin]; [discriminate |]).
      now apply elem_of_nil in Hin.
Qed.

Lemma has_generic_permission_view_unchecked_trace W page user opt_site st :
  ∃ events : list Event,
    trace (final_state
             (has_generic_permission W page user "view_page" opt_site false st))
    = (trace st ++ events)%list
    ∧ no_global_check events.
Proof.
  unfold has_generic_permission.
  rewrite (bind_Return _ _ _ _ _
             (getitem_Some (actions_map W) "view_page" _ st eq_refl)).
  unfold get_view_id_list.
  set (s := match opt_site with Some s => s | None => site page end).
  destruct (get_page_ids_unchecked_trace W user s "view_page" st)
    as (events & Htrace & Hno).
  exists events. split; [| exact Hno].
  destruct (get_page_ids_for_action_returns W user s "view_page" false st)
    as (page_ids & st' & Hrun).
  rewrite Hrun in Htrace. now rewrite (bind_Return _ _ _ _ _ Hrun).
Qed.

(** C2. [user_can_view_page] decides by the first rule that applies, in
    this order: a superuser is allowed; an unrestricted page (after
    resolution to the draft) under a public-visibility policy that admits
    the user ('all', or 'staff' for a staff user) is allowed; an
    unauthenticated user is denied; a user who can view all pages of the
    page's site is allowed; an unrestricted page is denied; otherwise the
    answer is that of [has_generic_permission] for 'view_page' on the draft
    with [check_global] off, a run that asks for no global grant. *)
Theorem user_can_view_page_order W user page st :
  let draft := if publisher_is_draft page then page
               else publisher_draft W page in
  let restricted := has_view_restrictions W draft in
  let admitted :=
    String.eqb (PUBLIC_FOR W) "all"
    || (String.eqb (PUBLIC_FOR W) "staff" && is_staff user) in
  (is_superuser user = true ->
     user_can_view_page W user page st = Return true st)
  ∧ (is_superuser user = false ->
     (restricted = false -> admitted = true ->
        user_can_view_page W user page st = Return true st)
     ∧ (restricted = true ∨ admitted = false ->
        (is_authenticated user = false ->
           user_can_view_page W user page st = Return false st)
        ∧ (is_authenticated user = true ->
           ∃ view_all st1,
             user_can_view_all_pages W user (site draft) st
             = Return view_all st1
             ∧ (view_all = true ->
                  user_can_view_page W user page st = Return true st1)
             ∧ (view_all = false ->
                  (restricted = false ->
                     user_can_view_page W user page st = Return false st1)
                  ∧ (restricted = true ->
                     user_can_view_page W user page st
                     = has_generic_permission W draft user "view_page"
                         None false st1
                     ∧ ∃ events : list Event,
                         trace (final_state
                                  (user_can_view_page W user page st))
                         = (trace st1 ++ events)%list
                         ∧ no_global_check events))))).
Proof.
  intros draft restricted admitted.
  unfold user_can_view_page, cached_func.
  fold (get_page_draft W page). change (get_page_draft W page) with draft.
  fold restricted. change (can_see_unrestricted W user) with admitted.
  split; [now intros -> |].
  intros ->. split; [now intros -> -> |].
  intros Hno.
  assert (Hcond : negb restricted && admitted = false).
  { destruct Hno as [-> | ->]; [reflexivity | apply andb_false_r]. }
  rewrite Hcond. split; [now intros -> |].
  intros ->. simpl.
  destruct (user_can_view_all_pages_returns W user (site draft) st)
    as (view_all & st1 & Hall).
  exists view_all, st1. split; [exact Hall |].
  rewrite (bind_Return _ _ _ _ _ Hall).
  split; [now intros -> |].
  intros ->. split; [now intros -> |].
  intros ->. simpl. rewrite bind_ret_r. split; [reflexivity |].
  apply has_generic_permission_view_unchecked_trace.
Qed.

Lemma user_can_view_page_order_witness :
  user_can_view_page (Sample.world true "all" true false) Sample.visitor
    Sample.published Sample.empty_state
  = has_generic_permission (Sample.world true "all" true false) Sample.draft
      Sample.visitor "view_page" None false
      {| cache := ∅;
         trace := [EvHasGlobalPermission Sample.visitor 1 "view_page"] |}.
Proof.
  pose proof (user_can_view_page_order (Sample.world true "all" true false)
                Sample.visitor Sample.published Sample.empty_state) as H.
  simpl in H. destruct H as [_ H].
  destruct (H eq_refl) as [_ H1].
  destruct (H1 (or_introl eq_refl)) as [_ H2].
  destruct (H2 eq_refl) as (view_all & st1 & Hall & _ & H3).
  vm_compute in Hall. injection Hall as <- <-.
  destruct (H3 eq_refl) as [_ H4].
  destruct (H4 eq_refl) as [H5 _].
  exact H5.
Defined.

(** ** The delete rule *)

Lemma has_generic_permission_returns
    W page user action opt_site check_global st :
  is_Some (actions_map W !! action) ->
  ∃ b st',
    has_generic_permission W page user action opt_site check_global st
    = Return b st'.
Proof.
  intros [getter Hget].
  destruct (actions_map_inv _ _ _ Hget) as (resolved & -> & _).
  unfold has_generic_permission.
  rewrite (bind_Return _ _ _ _ _ (getitem_Some _ _ _ st Hget)).
  set (s := match opt_site with Some s => s | None => site page end).
  destruct (get_page_ids_for_action_returns W user s resolved check_global st)
    as (page_ids & st' & Hrun).
  rewrite (bind_Return _ _ _ _ _ Hrun). now eauto.
Qed.

(** The placeholders [_get_draft_placeholders] selects for a page that is
    published from a draft, or is that draft: the rows attached to the
    draft. *)
Lemma draft_placeholders_spec W page draft_id placeholder :
  (if publisher_is_draft page then Some (pk page)
   else publisher_public_id page) = Some draft_id ->
  placeholder ∈ _get_draft_placeholders W page ↔
  placeholder ∈ Placeholder_objects W
  ∧ draft_id ∈ placeholder_pages placeholder.
Proof.
  intros Hid. unfold _get_draft_placeholders.
  destruct (publisher_is_draft page); [injection Hid as <- | rewrite Hid];
    unfold filter_page_pk; rewrite list_elem_of_In, filter_In,
      <- list_elem_of_In, bool_decide_eq_true; reflexivity.
Qed.

(** The placeholders kept by the language filter: those holding a plugin
    in one of the languages. *)
Lemma filter_language_in_spec langs placeholders placeholder :
  placeholder ∈ filter_language_in langs placeholders ↔
  placeholder ∈ placeholders
  ∧ ∃ l, l ∈ cmsplugin_languages placeholder ∧ l ∈ langs.
Proof.
  unfold filter_language_in.
  rewrite list_elem_of_In, filter_In, <- list_elem_of_In, existsb_exists.
  split; intros [Hin (l & Hl & Hlangs)]; (split; [exact Hin |]); exists l.
  - apply list_elem_of_In in Hl. now apply bool_decide_eq_true in Hlangs.
  - apply list_elem_of_In in Hl. split; [exact Hl |].
    now apply bool_decide_eq_true.
Qed.

Section Loop.

Variable W : World.
Variable user : User.
Variable langs : list string.

Let allowed (placeholder : Placeholder) : bool :=
  delete_plugins_permission W placeholder user langs.

Let checked (placeholder : Placeholder) : Event :=
  EvHasDeletePlugins placeholder user langs.

(** The loop runs through a prefix of placeholders that all pass. *)
Lemma for_placeholders_app passed rest st :
  (∀ ph, ph ∈ passed -> allowed ph = true) ->
  for_placeholders W user langs (passed ++ rest) st
  = for_placeholders W user langs rest
      {| cache := cache st; trace := trace st ++ map checked passed |}.
Proof.
  revert st. induction passed as [| ph passed IH]; intros st Hall; simpl.
  - rewrite app_nil_r. now destruct st.
  - unfold bind, has_delete_plugins_permission, bind, log. simpl.
    fold (allowed ph). rewrite (Hall ph) by apply list_elem_of_here. simpl.
    rewrite IH by (intros ph' Hin; apply Hall; now apply list_elem_of_further).
    simpl. now rewrite <- app_assoc.
Qed.

(** The loop answers false at the first placeholder that fails, the ones
    behind it being left unasked. *)
Lemma for_placeholders_first_failure passed failing rest st :
  (∀ ph, ph ∈ passed -> allowed ph = true) ->
  allowed failing = false ->
  for_placeholders W user langs (passed ++ failing :: rest) st
  = Return false
      {| cache := cache st;
         trace := trace st ++ map checked (passed ++ [failing]) |}.
Proof.
  intros Hall Hfail. rewrite for_placeholders_app by exact Hall. simpl.
  unfold bind, has_delete_plugins_permission, bind, log. simpl.
  fold (allowed failing). rewrite Hfail. simpl.
  now rewrite map_app, app_assoc.
Qed.

(** The loop always returns, and returns true exactly when every
    placeholder passes. *)
Lemma for_placeholders_returned placeholders st :
  returned (for_placeholders W user langs placeholders st)
  = Some (forallb allowed placeholders).
Proof.
  revert st. induction placeholders as [| ph placeholders IH]; intros st.
  - reflexivity.
  - simpl. unfold bind, has_delete_plugins_permission, bind, log. simpl.
    fold (allowed ph). destruct (allowed ph); simpl; [apply IH | reflexivity].
Qed.

End Loop.

(** Two filters in a row keep what passes both. *)
Lemma filter_filter_andb {A} (f g : A -> bool) (l : list A) :
  List.filter f (List.filter g l) = List.filter (fun x => g x && f x) l.
Proof.
  induction l as [| x l IH]; simpl; [reflexivity |].
  destruct (g x); simpl; [destruct (f x) |]; now rewrite IH.
Qed.

(** The rows the delete rule of a page goes through, written out on the
    placeholder table: those attached to the draft (to no page, when the
    published page points at none) that hold a plugin in one of the
    languages, in table order. *)
Lemma delete_page_placeholders W page langs :
  filter_language_in langs (_get_draft_placeholders W page)
  = List.filter
      (fun ph =>
         match (if publisher_is_draft page then Some (pk page)
                else publisher_public_id page) with
         | Some i => bool_decide (i ∈ placeholder_pages ph)
         | None => bool_decide (placeholder_pages ph = [])
         end
         && existsb (fun l => bool_decide (l ∈ langs))
              (cmsplugin_languages ph))
      (Placeholder_objects W).
Proof.
  unfold filter_language_in, _get_draft_placeholders, filter_page_pk.
  destruct (publisher_is_draft page); [| destruct (publisher_public_id page)];
    apply filter_filter_andb.
Qed.

(** C4, as the code has it.  A superuser, and any user holding the change
    and the delete code while the permission subsystem is disabled, is
    allowed by the pre-check of [user_can_delete_page] with nothing
    inspected.  For a user the pre-check lets through to the body
    (authenticated, not a superuser, holding the two codes, permission
    subsystem enabled), [user_can_delete_page] returns true exactly when the
    base delete grant passes and
    [has_delete_plugins_permission(user, languages)] holds, over all languages
    of the page, for every row of the placeholder table that is attached to
    the draft (the page itself when it is a draft, the page its
    [publisher_public_id] names otherwise) and holds a plugin in one of
    those languages; going through these rows in table order, it returns
    false at the first that fails, the rows behind it being left unasked. *)
Theorem user_can_delete_page_checks_placeholders W user page st :
  is_authenticated user = true ->
  let langs := get_languages page in
  let draft_id := if publisher_is_draft page then Some (pk page)
                  else publisher_public_id page in
  let attached ph :=
    match draft_id with
    | Some i => bool_decide (i ∈ placeholder_pages ph)
    | None => bool_decide (placeholder_pages ph = [])
    end in
  let holds_plugin ph :=
    existsb (fun l => bool_decide (l ∈ langs)) (cmsplugin_languages ph) in
  let inspected :=
    List.filter (fun ph => attached ph && holds_plugin ph)
      (Placeholder_objects W) in
  let allowed ph := delete_plugins_permission W ph user langs in
  (is_superuser user = true ->
     user_can_delete_page W user page st = Return true st)
  ∧ (is_superuser user = false ->
     has_perms user [PAGE_CHANGE_CODENAME; PAGE_DELETE_CODENAME] = true ->
     (PERMISSION W = false ->
        user_can_delete_page W user page st = Return true st)
     ∧ (PERMISSION W = true ->
        ∃ base st1,
          has_generic_permission W page user "delete_page" None true st
          = Return base st1
          ∧ (returned (user_can_delete_page W user page st) = Some true ↔
             base = true
             ∧ ∀ ph, ph ∈ Placeholder_objects W ->
                     attached ph = true ->
                     (∃ l, l ∈ cmsplugin_languages ph ∧ l ∈ langs) ->
                     allowed ph = true)
          ∧ (base = true ->
             ∀ passed failing rest,
               inspected = (passed ++ failing :: rest)%list ->
               (∀ ph, ph ∈ passed -> allowed ph = true) ->
               allowed failing = false ->
               user_can_delete_page W user page st
               = Return false
                   {| cache := cache st1;
                      trace :=
                        trace st1
                        ++ map (fun ph => EvHasDeletePlugins ph user langs)
                             (passed ++ [failing]) |}))).
Proof.
  intros Hauth langs draft_id attached holds_plugin inspected allowed.
  unfold user_can_delete_page. split.
  { intros Hsu. unfold permission_pre_checks. now rewrite Hauth, Hsu. }
  intros Hsu Hperms. split.
  { intros Hoff.
    now apply pre_checks_disabled
      with [PAGE_CHANGE_CODENAME; PAGE_DELETE_CODENAME]. }
  intros Hon.
  destruct (has_generic_permission_returns W page user "delete_page" None
              true st) as (base & st1 & Hbase); [now eexists |].
  exists base, st1. split; [exact Hbase |].
  rewrite (pre_checks_fall_through W "delete_page" _ user page _ st
             eq_refl Hauth Hsu Hperms Hon).
  unfold cached_func. rewrite (bind_Return _ _ _ _ _ Hbase).
  fold langs. rewrite (delete_page_placeholders W page langs).
  change (List.filter _ (Placeholder_objects W)) with inspected.
  assert (Hin : ∀ ph, In ph inspected ↔
                      ph ∈ Placeholder_objects W ∧ attached ph = true
                      ∧ ∃ l, l ∈ cmsplugin_languages ph ∧ l ∈ langs).
  { intros ph. unfold inspected.
    rewrite filter_In, <- list_elem_of_In, andb_true_iff.
    unfold holds_plugin. rewrite existsb_exists.
    split.
    - intros (Hrow & Hatt & l & Hl & Hlang). repeat split; try assumption.
      exists l. split; [now apply list_elem_of_In |].
      now apply bool_decide_eq_true in Hlang.
    - intros (Hrow & Hatt & l & Hl & Hlang). repeat split; try assumption.
      exists l. split; [now apply list_elem_of_In |].
      now apply bool_decide_eq_true. }
  destruct base; simpl.
  - split.
    + rewrite for_placeholders_returned. fold allowed. split.
      * intros [= Hall]. split; [reflexivity |].
        intros ph Hrow Hatt Hplugin. rewrite forallb_forall in Hall.
        apply Hall. now apply Hin.
      * intros [_ Hall]. f_equal. apply forallb_forall.
        intros ph Hph. apply Hin in Hph as (Hrow & Hatt & Hplugin).
        now apply Hall.
    + intros _ passed failing rest -> Hpassed Hfail.
      now apply for_placeholders_first_failure.
  - split; [| discriminate].
    split; [discriminate | intros [? _]; discriminate].
Qed.

Lemma user_can_delete_page_checks_placeholders_witness :
  user_can_delete_page (Sample.world true "all" false false) Sample.editor
    Sample.draft Sample.empty_state
  = Return false
      {| cache := <[("editor", "delete_page") := PageIds [1]]> ∅;
         trace := [EvCacheGet "editor" "delete_page";
                   EvHasGlobalPermission Sample.editor 1 "delete_page";
                   EvGetPageActions Sample.editor 1;
                   EvCacheSet "editor" "delete_page" [1];
                   EvHasDeletePlugins Sample.body Sample.editor
                     ["de"; "en"]] |}.
Proof.
  destruct (user_can_delete_page_checks_placeholders
              (Sample.world true "all" false false) Sample.editor Sample.draft
              Sample.empty_state eq_refl) as [_ Hbody].
  destruct (Hbody eq_refl eq_refl) as [_ Hon].
  destruct (Hon eq_refl) as (base & st1 & Hbase & _ & Hfirst).
  vm_compute in Hbase. injection Hbase as <- <-.
  exact (Hfirst eq_refl [] Sample.body [] eq_refl
           (fun ph Hin => False_ind _ (not_elem_of_nil ph Hin)) eq_refl).
Defined.

(** With the permission subsystem disabled the pre-check allows an editor
    to delete a page although a placeholder of the page fails the plugin
    check. *)
Lemma user_can_delete_page_counterexample :
  let W := Sample.world false "all" false false in
  let langs := get_languages Sample.draft in
  returned (user_can_delete_page W Sample.editor Sample.draft
              Sample.empty_state) = Some true
  ∧ Sample.body
      ∈ filter_language_in langs (_get_draft_placeholders W Sample.draft)
  ∧ delete_plugins_permission W Sample.body Sample.editor langs = false.
Proof.
  repeat split. vm_compute. apply list_elem_of_here.
Qed.

(** ** Disabled permission subsystem *)

(** With the subsystem disabled, [user_can_view_all_pages] answers a user
    who is not a superuser by the public-visibility policy alone. *)
Lemma user_can_view_all_pages_disabled W user s st :
  PERMISSION W = false -> is_superuser user = false ->
  user_can_view_all_pages W user s st
  = Return (can_see_unrestricted W user) st.
Proof.
  intros Hoff Hsu. unfold user_can_view_all_pages, cached_func.
  now rewrite Hsu, Hoff.
Qed.

(** C5, as the code has it.  With the permission subsystem disabled, every
    decision decorated with an action of the coarse-capability table
    returns true for an authenticated user holding the codes of the action,
    whatever the grants, the restrictions and the resource; the two view
    decisions, which no coarse check guards, return true when the
    public-visibility policy admits the user ('all', or 'staff' for a staff
    user). *)
Theorem disabled_subsystem_allows W user d st :
  PERMISSION W = false ->
  is_authenticated user = true ->
  (∀ action permissions,
     pre_check_action d = Some action ->
     _django_permissions_by_action !! action = Some permissions ->
     has_perms user permissions = true ->
     decide_permission W user d st = Return true st)
  ∧ (pre_check_action d = None ->
     String.eqb (PUBLIC_FOR W) "all"
     || (String.eqb (PUBLIC_FOR W) "staff" && is_staff user) = true ->
     decide_permission W user d st = Return true st).
Proof.
  intros Hoff Hauth. split.
  - intros action permissions Hd Htable Hperms.
    destruct (decorated_decision W d action Hd) as (A & func & args & ->).
    now apply pre_checks_disabled with permissions.
  - intros Hd Hadmitted.
    change (can_see_unrestricted W user = true) in Hadmitted.
    destruct d; try discriminate Hd; simpl.
    + unfold user_can_view_page, cached_func.
      destruct (is_superuser user) eqn:Hsu; [reflexivity |].
      rewrite Hadmitted, Hauth.
      destruct (has_view_restrictions W (get_page_draft W page));
        [| reflexivity].
      simpl.
      rewrite (bind_Return _ _ _ _ _
                 (user_can_view_all_pages_disabled W user _ st Hoff Hsu)).
      now rewrite Hadmitted.
    + destruct (is_superuser user) eqn:Hsu.
      * unfold user_can_view_all_pages, cached_func. now rewrite Hsu.
      * rewrite user_can_view_all_pages_disabled by assumption.
        now rewrite Hadmitted.
Qed.

Lemma disabled_subsystem_allows_witness :
  decide_permission (Sample.world false "staff" true false) Sample.editor
    (CanDeletePage Sample.draft) Sample.empty_state
  = Return true Sample.empty_state.
Proof.
  apply (disabled_subsystem_allows (Sample.world false "staff" true false)
           Sample.editor (CanDeletePage Sample.draft) Sample.empty_state
           eq_refl eq_refl)
    with (action := "delete_page")
         (permissions := [PAGE_CHANGE_CODENAME; PAGE_DELETE_CODENAME]);
    reflexivity.
Defined.

(** With the permission subsystem disabled and pages public for staff only,
    an authenticated user outside the staff is refused by both view
    decisions. *)
Lemma disabled_subsystem_view_counterexample :
  let W := Sample.world false "staff" false false in
  PERMISSION W = false
  ∧ is_authenticated Sample.visitor = true
  ∧ decide_permission W Sample.visitor (CanViewAllPages 1)
      Sample.empty_state = Return false Sample.empty_state
  ∧ decide_permission W Sample.visitor (CanViewPage Sample.draft)
      Sample.empty_state = Return false Sample.empty_state.
Proof. repeat split. Qed.

(** ** Unauthenticated users *)

(** C6, as the code has it.  Every decision behind the coarse pre-check
    returns false for an unauthenticated user.  [user_can_view_page] returns
    false for an unauthenticated user who is not a superuser unless the
    page, resolved to its draft, is unrestricted and the public-visibility
    policy admits the user, in which case it returns true; and
    [user_can_view_all_pages] returns false for such a user while the
    permission subsystem is enabled.  In each case the state is left as it
    was. *)
Theorem unauthenticated_denied W user d st :
  is_authenticated user = false ->
  (pre_check_action d ≠ None ->
     decide_permission W user d st = Return false st)
  ∧ (∀ page, d = CanViewPage page ->
     is_superuser user = false ->
     let restricted :=
       has_view_restrictions W
         (if publisher_is_draft page then page else publisher_draft W page) in
     let admitted :=
       String.eqb (PUBLIC_FOR W) "all"
       || (String.eqb (PUBLIC_FOR W) "staff" && is_staff user) in
     (restricted = true ∨ admitted = false ->
        decide_permission W user d st = Return false st)
     ∧ (restricted = false -> admitted = true ->
        decide_permission W user d st = Return true st))
  ∧ (∀ s, d = CanViewAllPages s ->
     is_superuser user = false -> PERMISSION W = true ->
     decide_permission W user d st = Return false st).
Proof.
  intros Hauth. split; [| split].
  - intros Hd. destruct (pre_check_action d) as [action |] eqn:Hact;
      [| contradiction].
    destruct (decorated_decision W d action Hact) as (A & func & args & ->).
    now apply pre_checks_unauthenticated.
  - intros page -> Hsu restricted admitted. simpl.
    unfold user_can_view_page, cached_func. rewrite Hsu, Hauth.
    fold (get_page_draft W page) in restricted.
    change (has_view_restrictions W (get_page_draft W page)) with restricted.
    change (can_see_unrestricted W user) with admitted.
    split.
    + intros [-> | ->]; [reflexivity | now rewrite andb_false_r].
    + now intros -> ->.
  - intros s -> Hsu Hon. simpl.
    unfold user_can_view_all_pages, cached_func.
    now rewrite Hsu, Hon, Hauth.
Qed.

Lemma unauthenticated_denied_witness :
  decide_permission (Sample.world true "all" true false) Sample.anonymous
    (CanViewPage Sample.published) Sample.empty_state
  = Return false Sample.empty_state
  ∧ decide_permission (Sample.world true "all" false false) Sample.anonymous
      (CanViewPage Sample.published) Sample.empty_state
    = Return true Sample.empty_state.
Proof.
  split.
  - destruct (unauthenticated_denied (Sample.world true "all" true false)
                Sample.anonymous (CanViewPage Sample.published)
                Sample.empty_state eq_refl) as (_ & Hview & _).
    destruct (Hview Sample.published eq_refl eq_refl) as [Hdeny _].
    exact (Hdeny (or_introl eq_refl)).
  - destruct (unauthenticated_denied (Sample.world true "all" false false)
                Sample.anonymous (CanViewPage Sample.published)
                Sample.empty_state eq_refl) as (_ & Hview & _).
    destruct (Hview Sample.published eq_refl eq_refl) as [_ Hallow].
    exact (Hallow eq_refl eq_refl).
Defined.

(** An unauthenticated user is allowed to view an unrestricted page of a
    project whose pages are public for all. *)
Lemma unauthenticated_view_counterexample :
  let W := Sample.world true "all" false false in
  is_authenticated Sample.anonymous = false
  ∧ decide_permission W Sample.anonymous (CanViewPage Sample.draft)
      Sample.empty_state = Return true Sample.empty_state.
Proof. split; reflexivity. Qed.

(** ** Unknown actions *)

(** C9, as the code has it.  [has_generic_permission] raises [KeyError],
    with nothing evaluated, for every action name absent from its dispatch
    table, whatever the page and the user.  The coarse pre-check, built for
    an action name absent from the coarse-capability table, raises
    [KeyError] once the user is authenticated and not a superuser; before
    the table is consulted it answers an unauthenticated user false and an
    authenticated superuser true, [func] being left uncalled. *)
Theorem unknown_action_raises W page user action opt_site check_global st :
  (actions_map W !! action = None ->
     has_generic_permission W page user action opt_site check_global st
     = Raise (KeyError action) st)
  ∧ (_django_permissions_by_action !! action = None ->
     ∀ (A : Type) (func : User -> A -> M bool) (args : A),
       (is_authenticated user = true -> is_superuser user = false ->
          permission_pre_checks W action func user args st
          = Raise (KeyError action) st)
       ∧ (is_authenticated user = false ->
          permission_pre_checks W action func user args st
          = Return false st)
       ∧ (is_authenticated user = true -> is_superuser user = true ->
          permission_pre_checks W action func user args st
          = Return true st)).
Proof.
  split.
  - intros Hnone. unfold has_generic_permission.
    now rewrite (bind_Raise _ _ _ _ _ (getitem_None _ _ st Hnone)).
  - intros Hnone A func args. unfold permission_pre_checks.
    split; [| split].
    + intros Hauth Hsu. rewrite Hauth, Hsu. simpl.
      now rewrite (bind_Raise _ _ _ _ _ (getitem_None _ _ st Hnone)).
    + now intros ->.
    + now intros -> ->.
Qed.

Lemma unknown_action_raises_witness :
  has_generic_permission (Sample.world true "all" false false) Sample.draft
    Sample.editor "recover_page" None true Sample.empty_state
  = Raise (KeyError "recover_page") Sample.empty_state
  ∧ permission_pre_checks (Sample.world true "all" false false) "view_page"
      (fun _ _ => ret true) Sample.editor tt Sample.empty_state
    = Raise (KeyError "view_page") Sample.empty_state
  ∧ permission_pre_checks (Sample.world true "all" false false) "view_page"
      (fun _ _ => ret true) Sample.anonymous tt Sample.empty_state
    = Return false Sample.empty_state.
Proof.
  split; [| split].
  - destruct (unknown_action_raises (Sample.world true "all" false false)
                Sample.draft Sample.editor "recover_page" None true
                Sample.empty_state) as [Hraise _].
    exact (Hraise eq_refl).
  - destruct (unknown_action_raises (Sample.world true "all" false false)
                Sample.draft Sample.editor "view_page" None true
                Sample.empty_state) as [_ Hpre].
    destruct (Hpre eq_refl unit (fun _ _ => ret true) tt) as [Hraise _].
    exact (Hraise eq_refl eq_refl).
  - destruct (unknown_action_raises (Sample.world true "all" false false)
                Sample.draft Sample.anonymous "view_page" None true
                Sample.empty_state) as [_ Hpre].
    destruct (Hpre eq_refl unit (fun _ _ => ret true) tt) as (_ & Hanon & _).
    exact (Hanon eq_refl).
Defined.

(** The coarse pre-check, asked about an action of no table, answers an
    unauthenticated user false and a superuser true without raising. *)
Lemma unknown_action_counterexample :
  let W := Sample.world true "all" false false in
  _django_permissions_by_action !! "no_such_action" = None
  ∧ permission_pre_checks W "no_such_action" (fun _ _ => ret true)
      Sample.anonymous tt Sample.empty_state
    = Return false Sample.empty_state
  ∧ permission_pre_checks W "no_such_action" (fun _ _ => ret false)
      Sample.root tt Sample.empty_state
    = Return true Sample.empty_state.
Proof. repeat split. Qed.

(** ** The view-all compatibility branch *)

(** C10, as the code has it.  While the permission subsystem is enabled,
    an authenticated user who is not a superuser and holds the page-view
    code is answered true by [user_can_view_all_pages] for every site,
    whatever the global grants, no collaborator being asked; and
    [user_can_view_page] allows that user every page, restricted or not. *)
Theorem view_code_views_all W user st :
  PERMISSION W = true ->
  is_authenticated user = true -> is_superuser user = false ->
  has_perm user PAGE_VIEW_CODENAME = true ->
  (∀ s, user_can_view_all_pages W user s st = Return true st)
  ∧ (∀ page, user_can_view_page W user page st = Return true st).
Proof.
  intros Hon Hauth Hsu Hview.
  assert (Hall : ∀ s, user_can_view_all_pages W user s st = Return true st).
  { intros s. unfold user_can_view_all_pages, cached_func.
    now rewrite Hsu, Hon, Hauth, Hview. }
  split; [exact Hall |].
  intros page. unfold user_can_view_page, cached_func. rewrite Hsu, Hauth.
  destruct (negb (has_view_restrictions W (get_page_draft W page))
            && can_see_unrestricted W user); [reflexivity |].
  simpl. now rewrite (bind_Return _ _ _ _ _ (Hall _)).
Qed.

Lemma view_code_views_all_witness :
  user_can_view_all_pages (Sample.world true "staff" true false)
    Sample.editor 1 Sample.empty_state = Return true Sample.empty_state
  ∧ user_can_view_page (Sample.world true "staff" true false)
      Sample.editor Sample.published Sample.empty_state
    = Return true Sample.empty_state.
Proof.
  destruct (view_code_views_all (Sample.world true "staff" true false)
              Sample.editor Sample.empty_state eq_refl eq_refl eq_refl
              eq_refl) as [Hall Hpage].
  exact (conj (Hall 1) (Hpage Sample.published)).
Defined.

(** With the permission subsystem disabled and pages public for staff only,
    the page-view code does not let a user outside the staff view all pages,
    nor an unrestricted page. *)
Lemma view_code_counterexample :
  let W := Sample.world false "staff" false false in
  is_authenticated Sample.editor = true
  ∧ is_superuser Sample.editor = false
  ∧ has_perm Sample.editor PAGE_VIEW_CODENAME = true
  ∧ user_can_view_all_pages W Sample.editor 1 Sample.empty_state
    = Return false Sample.empty_state
  ∧ user_can_view_page W Sample.editor Sample.draft Sample.empty_state
    = Return false Sample.empty_state.
Proof. repeat split. Qed.

(** ** Draft and published page *)

Section DraftPublished.

Variable W : World.
Variables published draft : Page.

Hypothesis published_is_public : publisher_is_draft published = false.
Hypothesis draft_is_draft : publisher_is_draft draft = true.
Hypothesis published_from_draft : publisher_public_id published = Some (pk draft).
Hypothesis same_site : site published = site draft.

(** The identity tested against the grant set is the draft's. *)
Lemma published_page_id :
  permission_page_id published = permission_page_id draft.
Proof.
  unfold permission_page_id.
  now rewrite published_is_public, draft_is_draft, published_from_draft.
Qed.

Lemma published_has_generic_permission user action opt_site check_global :
  has_generic_permission W published user action opt_site check_global
  = has_generic_permission W draft user action opt_site check_global.
Proof.
  unfold has_generic_permission. now rewrite published_page_id, same_site.
Qed.

(** The placeholders inspected are the draft's. *)
Lemma published_draft_placeholders :
  _get_draft_placeholders W published = _get_draft_placeholders W draft.
Proof.
  unfold _get_draft_placeholders.
  now rewrite published_is_public, draft_is_draft, published_from_draft.
Qed.

End DraftPublished.

Ltac open_wrapper :=
  unfold permission_pre_checks, cached_func; cbn beta iota.

(** C8, as the code has it.  For a published page and the draft it was
    published from, both on one site and reporting the same languages, every
    decision has the same outcome on the two pages, for every user: the
    returned value and the state reached are the same.  The identity tested
    against the grant set and the placeholders inspected by the delete rules
    are the draft's in both runs; the site and the languages are read from
    the page that was passed. *)
Theorem draft_published_equivalence W user d published draft st :
  publisher_is_draft published = false ->
  publisher_is_draft draft = true ->
  publisher_public_id published = Some (pk draft) ->
  publisher_draft W published = draft ->
  site published = site draft ->
  get_languages published = get_languages draft ->
  decide_permission W user (on_page d published) st
  = decide_permission W user (on_page d draft) st.
Proof.
  intros Hpub Hdraft Hid Hlink Hsite Hlangs.
  pose proof (published_has_generic_permission W published draft
                Hpub Hdraft Hid Hsite) as Hgen.
  pose proof (published_draft_placeholders W published draft
                Hpub Hdraft Hid) as Hph.
  assert (Hres : get_page_draft W published = get_page_draft W draft).
  { unfold get_page_draft. now rewrite Hpub, Hdraft. }
  destruct d; simpl; try reflexivity.
  - unfold user_can_add_subpage; open_wrapper. now rewrite Hgen.
  - unfold user_can_change_page; open_wrapper. now rewrite Hgen.
  - unfold user_can_delete_page; open_wrapper.
    now rewrite Hgen, Hph, Hlangs.
  - unfold user_can_delete_page_translation; open_wrapper.
    now rewrite Hgen, Hph.
  - unfold user_can_publish_page; open_wrapper. now rewrite Hgen.
  - unfold user_can_change_page_advanced_settings; open_wrapper.
    now rewrite Hgen.
  - unfold user_can_change_page_permissions; open_wrapper. now rewrite Hgen.
  - unfold user_can_move_page; open_wrapper. now rewrite Hgen.
  - unfold user_can_view_page, cached_func. now rewrite Hres.
Qed.

Lemma draft_published_equivalence_witness :
  decide_permission (Sample.world true "all" true false) Sample.editor
    (CanDeletePage Sample.republished) Sample.empty_state
  = decide_permission (Sample.world true "all" true false) Sample.editor
      (CanDeletePage Sample.draft) Sample.empty_state.
Proof.
  apply (draft_published_equivalence (Sample.world true "all" true false)
           Sample.editor (CanDeletePage Sample.draft) Sample.republished
           Sample.draft Sample.empty_state);
    reflexivity.
Defined.

(** A draft with an unpublished German translation: the editor may not
    delete the German plugin, so the draft is refused, while the published
    page, which reports English only, is allowed. *)
Lemma draft_published_counterexample :
  let W := Sample.world true "all" false false in
  publisher_is_draft Sample.published = false
  ∧ publisher_is_draft Sample.draft = true
  ∧ publisher_public_id Sample.published = Some (pk Sample.draft)
  ∧ publisher_draft W Sample.published = Sample.draft
  ∧ site Sample.published = site Sample.draft
  ∧ returned (decide_permission W Sample.editor
                (CanDeletePage Sample.published) Sample.empty_state)
    = Some true
  ∧ returned (decide_permission W Sample.editor
                (CanDeletePage Sample.draft) Sample.empty_state)
    = Some false.
Proof. repeat split. Qed.

(** * Further properties of the module *)

(** ** Runs only add to the state *)

Lemma grows_refl name st : grows name st st.
Proof.
  repeat split; auto. exists []. now rewrite app_nil_r.
Qed.

Lemma grows_trans name st1 st2 st3 :
  grows name st1 st2 -> grows name st2 st3 -> grows name st1 st3.
Proof.
  intros (Hk1 & Ho1 & e1 & Ht1) (Hk2 & Ho2 & e2 & Ht2). repeat split.
  - intros key page_ids H. now apply Hk2, Hk1.
  - intros key H. now rewrite Ho2, Ho1.
  - exists (e1 ++ e2)%list. now rewrite Ht2, Ht1, app_assoc.
Qed.

Lemma grows_emit name e st : grows name st (emit e st).
Proof. repeat split; auto. now exists [e]. Qed.

Lemma safe_ret name {A} (a : A) : safe name (ret a).
Proof. intros st. exists a, st. split; [reflexivity | apply grows_refl]. Qed.

Lemma safe_bind name {A B} (m : M A) (f : A -> M B) :
  safe name m -> (∀ a, safe name (f a)) -> safe name (bind m f).
Proof.
  intros Hm Hf st. destruct (Hm st) as (a & st1 & Hrun & Hg1).
  destruct (Hf a st1) as (b & st2 & Hrun2 & Hg2).
  exists b, st2. split.
  - now rewrite (bind_Return _ _ _ _ _ Hrun).
  - now apply grows_trans with st1.
Qed.

Lemma safe_log name e : safe name (log e).
Proof. intros st. exists tt, (emit e st). split; [reflexivity | apply grows_emit]. Qed.

Lemma safe_getitem name {V} (d : gmap string V) key :
  is_Some (d !! key) -> safe name (getitem d key).
Proof.
  intros [v Hv] st. exists v, st.
  split; [now apply getitem_Some | apply grows_refl].
Qed.

Lemma safe_has_global_permission name W user s action :
  safe name (has_global_permission W user s action).
Proof.
  apply safe_bind; [apply safe_log | intros _; apply safe_ret].
Qed.

Lemma safe_has_delete_plugins_permission name W placeholder user langs :
  safe name (has_delete_plugins_permission W placeholder user langs).
Proof.
  apply safe_bind; [apply safe_log | intros _; apply safe_ret].
Qed.

(** The resolver writes the cache only under a key of its user that held
    nothing. *)
Lemma safe_get_page_ids_for_action W user s action check_global :
  safe (username user) (_get_page_ids_for_action W user s action check_global).
Proof.
  intros st. unfold _get_page_ids_for_action.
  destruct (is_superuser user || negb (PERMISSION W)).
  { eexists _, _. split; [reflexivity | apply grows_refl]. }
  unfold bind at 1. unfold get_permission_cache.
  destruct (cache st !! (username user, action)) as [cached |] eqn:Hc.
  { eexists _, _. split; [reflexivity | apply grows_emit]. }
  assert (Hwrite : ∀ st1 ids,
            cache st1 = cache st ->
            grows (username user) st1
              {| cache := <[(username user, action) := PageIds ids]> (cache st1);
                 trace := trace st1
                          ++ [EvCacheSet (username user) action ids] |}).
  { intros st1 ids Hsame. repeat split; simpl.
    - intros key page_ids Hkey. rewrite lookup_insert_ne; [exact Hkey |].
      intros <-. rewrite Hsame, Hc in Hkey. discriminate.
    - intros key Hkey. rewrite lookup_insert_ne; [reflexivity |].
      intros <-. now apply Hkey.
    - now eexists. }
  destruct check_global.
  - unfold bind, has_global_permission, bind, log. simpl.
    destruct (global_permission W user s action).
    + eexists _, _. split; [reflexivity |].
      apply grows_trans with (emit (EvCacheGet (username user) action) st);
        apply grows_emit.
    + eexists _, _. split; [reflexivity |].
      eapply grows_trans; [apply grows_emit |].
      eapply grows_trans; [apply grows_emit |].
      eapply grows_trans; [apply grows_emit |].
      apply (Hwrite (emit _ (emit _ (emit _ st)))). reflexivity.
  - unfold bind, get_page_actions_for_user, bind, log. simpl.
    eexists _, _. split; [reflexivity |].
    eapply grows_trans; [apply grows_emit |].
    eapply grows_trans; [apply grows_emit |].
    apply (Hwrite (emit _ (emit _ st))). reflexivity.
Qed.

Lemma safe_has_generic_permission W page user action opt_site check_global :
  is_Some (actions_map W !! action) ->
  safe (username user)
    (has_generic_permission W page user action opt_site check_global).
Proof.
  intros [getter Hget] st.
  destruct (actions_map_inv _ _ _ Hget) as (resolved & -> & _).
  unfold has_generic_permission.
  rewrite (bind_Return _ _ _ _ _ (getitem_Some _ _ _ st Hget)).
  set (s := match opt_site with Some s => s | None => site page end).
  destruct (safe_get_page_ids_for_action W user s resolved check_global st)
    as (page_ids & st' & Hrun & Hgrows).
  rewrite (bind_Return _ _ _ _ _ Hrun). now eexists _, _.
Qed.

Lemma safe_for_placeholders W user langs placeholders :
  safe (username user) (for_placeholders W user langs placeholders).
Proof.
  induction placeholders as [| placeholder rest IH]; simpl.
  - apply safe_ret.
  - apply safe_bind; [apply safe_has_delete_plugins_permission |].
    intros ok. destruct ok; simpl; [exact IH | apply safe_ret].
Qed.

Lemma safe_permission_pre_checks {A} W action (func : User -> A -> M bool)
    user args :
  is_Some (_django_permissions_by_action !! action) ->
  safe (username user) (func user args) ->
  safe (username user) (permission_pre_checks W action func user args).
Proof.
  intros Htable Hfunc. unfold permission_pre_checks.
  destruct (negb (is_authenticated user)); [apply safe_ret |].
  destruct (is_superuser user); [apply safe_ret |].
  apply safe_bind; [now apply safe_getitem |].
  intros permissions.
  destruct (negb (has_perms user permissions)); [apply safe_ret |].
  destruct (negb (PERMISSION W)); [apply safe_ret | exact Hfunc].
Qed.

Lemma safe_user_can_view_all_pages W user s :
  safe (username user) (user_can_view_all_pages W user s).
Proof.
  unfold user_can_view_all_pages, cached_func.
  destruct (is_superuser user); [apply safe_ret |].
  destruct (negb (PERMISSION W)); [apply safe_ret |].
  destruct (negb (is_authenticated user)); [apply safe_ret |].
  destruct (has_perm user PAGE_VIEW_CODENAME); [apply safe_ret |].
  apply safe_has_global_permission.
Qed.

Lemma safe_user_can_view_page W user page :
  safe (username user) (user_can_view_page W user page).
Proof.
  unfold user_can_view_page, cached_func.
  destruct (is_superuser user); [apply safe_ret |].
  destruct (negb (has_view_restrictions W (get_page_draft W page))
            && can_see_unrestricted W user); [apply safe_ret |].
  destruct (negb (is_authenticated user)); [apply safe_ret |].
  apply safe_bind; [apply safe_user_can_view_all_pages |].
  intros view_all. destruct view_all; [apply safe_ret |].
  destruct (negb (has_view_restrictions W (get_page_draft W page)));
    [apply safe_ret |].
  apply safe_bind; [| intros ?; apply safe_ret].
  apply safe_has_generic_permission. now eexists.
Qed.

(** Every public decision returns, and leaves a state that comes after the
    one it started in. *)
Lemma safe_decide_permission W user d :
  safe (username user) (decide_permission W user d).
Proof.
  destruct d; simpl;
    try (apply safe_permission_pre_checks; [now eexists |];
         unfold cached_func).
  - apply safe_has_global_permission.
  - apply safe_bind; [| intros ?; apply safe_ret].
    apply safe_has_generic_permission. now eexists.
  - apply safe_bind; [| intros ?; apply safe_ret].
    apply safe_has_generic_permission. now eexists.
  - apply safe_bind; [apply safe_has_generic_permission; now eexists |].
    intros has_perm. destruct has_perm; simpl;
      [apply safe_for_placeholders | apply safe_ret].
  - apply safe_bind; [apply safe_has_generic_permission; now eexists |].
    intros has_perm. destruct has_perm; simpl;
      [apply safe_for_placeholders | apply safe_ret].
  - apply safe_bind; [| intros ?; apply safe_ret].
    apply safe_has_generic_permission. now eexists.
  - apply safe_bind; [| intros ?; apply safe_ret].
    apply safe_has_generic_permission. now eexists.
  - apply safe_bind; [| intros ?; apply safe_ret].
    apply safe_has_generic_permission. now eexists.
  - apply safe_bind; [| intros ?; apply safe_ret].
    apply safe_has_generic_permission. now eexists.
  - apply safe_user_can_view_page.
  - apply safe_has_global_permission.
  - apply safe_has_global_permission.
  - apply safe_user_can_view_all_pages.
Qed.

(** X1. A superuser who is authenticated is allowed by every public
    decision, and the answer is given before anything is looked up: the
    cache and the trace of collaborator calls are left as they were. *)
Theorem superuser_allowed W user d st :
  is_superuser user = true -> is_authenticated user = true ->
  decide_permission W user d st = Return true st.
Proof.
  intros Hsu Hauth.
  destruct d; simpl;
    try (unfold user_can_view_page, user_can_view_all_pages, cached_func;
         now rewrite Hsu);
    match goal with
    | |- ?f W user ?args st = _ =>
        unfold f, permission_pre_checks; now rewrite Hauth, Hsu
    end.
Qed.

Lemma superuser_allowed_witness :
  decide_permission (Sample.world true "staff" true false) Sample.root
    (CanDeletePage Sample.draft) Sample.empty_state
  = Return true Sample.empty_state.
Proof.
  apply (superuser_allowed (Sample.world true "staff" true false)
           Sample.root (CanDeletePage Sample.draft) Sample.empty_state);
    reflexivity.
Defined.

(** X2. No public decision raises: whatever the user, the arguments and the
    state, the call returns a boolean.  The actions the decisions are
    decorated with are all keys of [_django_permissions_by_action], and the
    actions they pass to [has_generic_permission] are all keys of its
    dispatch dictionary. *)
Theorem decisions_return W user d st :
  ∃ answer st', decide_permission W user d st = Return answer st'.
Proof.
  destruct (safe_decide_permission W user d st) as (answer & st' & Hrun & _).
  now exists answer, st'.
Qed.

(** X3. No public decision removes or replaces an entry of the permission
    cache: an entry present before the call is present, with the same
    value, after it. *)
Theorem decisions_keep_cache_entries W user d st key page_ids :
  cache st !! key = Some page_ids ->
  cache (final_state (decide_permission W user d st)) !! key = Some page_ids.
Proof.
  intros Hkey.
  destruct (safe_decide_permission W user d st)
    as (answer & st' & Hrun & Hkept & _).
  rewrite Hrun. simpl. now apply Hkept.
Qed.

Lemma decisions_keep_cache_entries_witness :
  cache (final_state
           (decide_permission Sample.newsroom Sample.reader
              (CanViewPage Sample.leaflet)
              {| cache := {[("reader", "change_page") := PageIds [7]]};
                 trace := [] |}))
    !! ("reader", "change_page") = Some (PageIds [7]).
Proof.
  apply (decisions_keep_cache_entries Sample.newsroom Sample.reader
           (CanViewPage Sample.leaflet)
           {| cache := {[("reader", "change_page") := PageIds [7]]};
              trace := [] |}).
  reflexivity.
Defined.

(** X4. A decision about one user leaves the cache entries of every other
    user as they were, present or absent. *)
Theorem decisions_leave_other_users W user d st name action :
  name ≠ username user ->
  cache (final_state (decide_permission W user d st)) !! (name, action)
  = cache st !! (name, action).
Proof.
  intros Hname.
  destruct (safe_decide_permission W user d st)
    as (answer & st' & Hrun & _ & Hothers & _).
  rewrite Hrun. simpl. now apply Hothers.
Qed.

Lemma decisions_leave_other_users_witness :
  cache (final_state
           (decide_permission Sample.newsroom Sample.reader
              (CanViewPage Sample.leaflet) Sample.empty_state))
    !! ("editor", "view_page") = None.
Proof.
  rewrite (decisions_leave_other_users Sample.newsroom Sample.reader
             (CanViewPage Sample.leaflet) Sample.empty_state "editor"
             "view_page");
    [reflexivity | discriminate].
Defined.

(** ** The permission cache across calls *)

(** The getter of a key of the dispatch dictionary is the resolver at the
    action the key resolves through. *)
Lemma actions_map_resolved W action getter :
  actions_map W !! action = Some getter ->
  getter = (fun user s check_global =>
              _get_page_ids_for_action W user s (resolved_action action)
                check_global).
Proof.
  intros H. apply elem_of_list_to_map_2 in H.
  repeat (apply elem_of_cons in H as [H | H];
          [injection H as -> ->; reflexivity |]).
  now apply elem_of_nil in H.
Qed.

(** The resolver on a cache miss, when no global grant cuts it short. *)
Lemma get_page_ids_miss W user s action check_global st :
  is_superuser user = false -> PERMISSION W = true ->
  cache st !! (username user, action) = None ->
  check_global = false ∨ global_permission W user s action = false ->
  ∃ st1,
    _get_page_ids_for_action W user s action check_global st
    = Return (PageIds (page_actions_for_user W user s action)) st1
    ∧ cache st1
      = <[(username user, action)
          := PageIds (page_actions_for_user W user s action)]> (cache st).
Proof.
  intros Hsu Hon Hc Hno. unfold _get_page_ids_for_action.
  rewrite Hsu, Hon. simpl.
  unfold bind at 1. unfold get_permission_cache. rewrite Hc.
  destruct check_global.
  - destruct Hno as [Hno | Hno]; [discriminate |].
    unfold bind, has_global_permission, bind, log. simpl. rewrite Hno.
    simpl. now eexists.
  - simpl. now eexists.
Qed.

(** The resolver on a cache hit. *)
Lemma get_page_ids_hit W user s action check_global st cached :
  is_superuser user = false -> PERMISSION W = true ->
  cache st !! (username user, action) = Some cached ->
  _get_page_ids_for_action W user s action check_global st
  = Return cached (emit (EvCacheGet (username user) action) st).
Proof.
  intros Hsu Hon Hc. unfold _get_page_ids_for_action.
  rewrite Hsu, Hon. simpl.
  unfold bind, get_permission_cache. now rewrite Hc.
Qed.

(** X5. What the resolver computed it finds again.  After a call that went
    to the tree aggregation, a second call for the same user and action
    returns the same ids after one cache read and nothing else, and it does
    so for any site, for either value of [check_global] and whatever the
    collaborators would now report: the cache is keyed by user and action
    alone. *)
Theorem resolved_ids_are_found_again
    W W' user s s' action check_global check_global' st :
  is_superuser user = false ->
  PERMISSION W = true -> PERMISSION W' = true ->
  cache st !! (username user, action) = None ->
  check_global = false ∨ global_permission W user s action = false ->
  ∃ st1,
    _get_page_ids_for_action W user s action check_global st
    = Return (PageIds (page_actions_for_user W user s action)) st1
    ∧ _get_page_ids_for_action W' user s' action check_global' st1
      = Return (PageIds (page_actions_for_user W user s action))
          (emit (EvCacheGet (username user) action) st1).
Proof.
  intros Hsu Hon Hon' Hc Hno.
  destruct (get_page_ids_miss W user s action check_global st Hsu Hon Hc Hno)
    as (st1 & Hrun & Hcache).
  exists st1. split; [exact Hrun |].
  apply get_page_ids_hit; [exact Hsu | exact Hon' |].
  rewrite Hcache. apply lookup_insert_eq.
Qed.

Lemma resolved_ids_are_found_again_witness :
  ∃ st1,
    _get_page_ids_for_action Sample.newsroom Sample.reader 1 "view_page"
      true Sample.empty_state = Return (PageIds [5]) st1
    ∧ _get_page_ids_for_action Sample.granting_world Sample.reader 2
        "view_page" false st1
      = Return (PageIds [5]) (emit (EvCacheGet "reader" "view_page") st1).
Proof.
  apply (resolved_ids_are_found_again Sample.newsroom Sample.granting_world
           Sample.reader 1 2 "view_page" true false Sample.empty_state);
    solve [reflexivity | right; reflexivity].
Defined.







(** ** The gates over the resolver *)

(** A run of [has_generic_permission] from a run of the getter. *)
Lemma has_generic_permission_run
    W page user action opt_site check_global getter st page_ids st' :
  actions_map W !! action = Some getter ->
  getter user (match opt_site with Some s => s | None => site page end)
    check_global st = Return page_ids st' ->
  has_generic_permission W page user action opt_site check_global st
  = Return (grants page_ids (permission_page_id page)) st'.
Proof.
  intros Hget Hrun. unfold has_generic_permission.
  rewrite (bind_Return _ _ _ _ _ (getitem_Some _ _ _ st Hget)).
  now rewrite (bind_Return _ _ _ _ _ Hrun).
Qed.

(** X9. Each of the six decisions whose body is one call of
    [has_generic_permission] (add a subpage, change, publish, change the
    advanced settings, change the permissions, move) asks, once the
    pre-check lets the user through, the resolver about the action it is
    decorated with, on the site given or else the page's, with the global
    check on, and returns whether the grant set admits the identity of the
    page. *)
Theorem plain_gate_decides_by_grant_set
    W user d page action opt_site permissions st :
  plain_gate d = Some (page, action, opt_site) ->
  _django_permissions_by_action !! action = Some permissions ->
  is_authenticated user = true -> is_superuser user = false ->
  has_perms user permissions = true -> PERMISSION W = true ->
  let s := match opt_site with Some s => s | None => site page end in
  ∃ page_ids st',
    pre_check_action d = Some action
    ∧ _get_page_ids_for_action W user s action true st = Return page_ids st'
    ∧ decide_permission W user d st
      = Return
          (grants page_ids
             (if publisher_is_draft page then Some (pk page)
              else publisher_public_id page))
          st'.
Proof.
  intros Hgate Htable Hauth Hsu Hperms Hon s.
  destruct (get_page_ids_for_action_returns W user s action true st)
    as (page_ids & st' & Hrun).
  exists page_ids, st'.
  destruct d; try discriminate Hgate; simpl in Hgate;
    injection Hgate as <- <- <-; (split; [reflexivity |]);
    (split; [exact Hrun |]); simpl;
    match goal with
    | |- ?f W user ?args st = _ => unfold f
    end;
    rewrite (pre_checks_fall_through W _ _ user _ _ st
               Htable Hauth Hsu Hperms Hon);
    unfold cached_func; cbn beta iota; rewrite bind_ret_r;
    (eapply has_generic_permission_run; [reflexivity | exact Hrun]).
Qed.

Lemma plain_gate_decides_by_grant_set_witness :
  ∃ page_ids st',
    pre_check_action (CanAddSubpage Sample.leaflet (Some 2))
    = Some "add_page"
    ∧ _get_page_ids_for_action Sample.newsroom Sample.editor 2 "add_page"
        true Sample.empty_state = Return page_ids st'
    ∧ decide_permission Sample.newsroom Sample.editor
        (CanAddSubpage Sample.leaflet (Some 2)) Sample.empty_state
      = Return (grants page_ids (Some 5)) st'.
Proof.
  apply (plain_gate_decides_by_grant_set Sample.newsroom Sample.editor
           (CanAddSubpage Sample.leaflet (Some 2)) Sample.leaflet "add_page"
           (Some 2) [PAGE_ADD_CODENAME; PAGE_CHANGE_CODENAME]
           Sample.empty_state);
    reflexivity.
Defined.

(** The wrapper either answers by itself, leaving the state as it was, or
    hands over to [func]. *)
Lemma pre_checks_final_state {A} W action (func : User -> A -> M bool)
    user args st :
  is_Some (_django_permissions_by_action !! action) ->
  final_state (permission_pre_checks W action func user args st) = st
  ∨ final_state (permission_pre_checks W action func user args st)
    = final_state (func user args st).
Proof.
  intros [permissions Htable]. unfold permission_pre_checks.
  destruct (negb (is_authenticated user)); [now left |].
  destruct (is_superuser user); [now left |].
  rewrite (bind_Return _ _ _ _ _ (getitem_Some _ _ _ st Htable)).
  destruct (negb (has_perms user permissions)); [now left |].
  destruct (negb (PERMISSION W)); [now left | now right].
Qed.

(** X10. The decisions asked about a site (add a page, change all pages,
    recover any page, view all pages) never read or write the permission
    cache: the cache is left as it was, and all the trace can gain is one
    call of [has_global_permission] for the user. *)
Theorem site_decisions_leave_cache W user d st :
  about_site d = true ->
  ∃ events : list Event,
    final_state (decide_permission W user d st)
    = {| cache := cache st; trace := trace st ++ events |}
    ∧ (events = []
       ∨ ∃ s action, events = [EvHasGlobalPermission user s action]).
Proof.
  intros Hd.
  assert (Hsame : st = {| cache := cache st; trace := trace st ++ [] |}).
  { rewrite app_nil_r. now destruct st. }
  assert (Hwrapped : ∀ (A : Type) action (func : User -> A -> M bool) args,
            is_Some (_django_permissions_by_action !! action) ->
            (∃ s a, final_state (func user args st)
                    = emit (EvHasGlobalPermission user s a) st) ->
            ∃ events : list Event,
              final_state (permission_pre_checks W action func user args st)
              = {| cache := cache st; trace := trace st ++ events |}
              ∧ (events = []
                 ∨ ∃ s action, events = [EvHasGlobalPermission user s action])).
  { intros A action func args Htable (s & a & Hfunc).
    destruct (pre_checks_final_state W action func user args st Htable)
      as [-> | ->].
    - exists []. split; [exact Hsame | now left].
    - exists [EvHasGlobalPermission user s a].
      split; [exact Hfunc | right; now eexists _, _]. }
  destruct d; try discriminate Hd; simpl.
  - apply Hwrapped; [now eexists | now eexists _, _].
  - apply Hwrapped; [now eexists | now eexists _, _].
  - apply Hwrapped; [now eexists | now eexists _, _].
  - unfold user_can_view_all_pages, cached_func.
    destruct (is_superuser user);
      [exists []; split; [exact Hsame | now left] |].
    destruct (PERMISSION W); simpl;
      [| exists []; split; [exact Hsame | now left]].
    destruct (is_authenticated user); simpl;
      [| exists []; split; [exact Hsame | now left]].
    destruct (has_perm user PAGE_VIEW_CODENAME);
      [exists []; split; [exact Hsame | now left] |].
    exists [EvHasGlobalPermission user s "view_page"].
    split; [reflexivity | right; now eexists _, _].
Qed.

Lemma site_decisions_leave_cache_witness :
  ∃ events : list Event,
    final_state
      (decide_permission Sample.newsroom Sample.editor (CanRecoverAnyPage 1)
         Sample.empty_state)
    = {| cache := ∅; trace := [] ++ events |}
    ∧ (events = []
       ∨ ∃ s action,
           events = [EvHasGlobalPermission Sample.editor s action]).
Proof.
  apply (site_decisions_leave_cache Sample.newsroom Sample.editor
           (CanRecoverAnyPage 1) Sample.empty_state).
  reflexivity.
Defined.

(** ** The two delete rules *)

(** The placeholders kept by the filter on one language: those holding a
    plugin in it. *)
Lemma filter_language_spec language placeholders placeholder :
  placeholder ∈ filter_language language placeholders ↔
  placeholder ∈ placeholders ∧ language ∈ cmsplugin_languages placeholder.
Proof.
  unfold filter_language.
  rewrite list_elem_of_In, filter_In, <- list_elem_of_In, existsb_exists.
  split.
  - intros [Hin (l & Hl & Heq)]. split; [exact Hin |].
    apply bool_decide_eq_true in Heq. subst l. now apply list_elem_of_In.
  - intros [Hin Hl]. split; [exact Hin |]. exists language.
    split; [now apply list_elem_of_In | now apply bool_decide_eq_true].
Qed.

(** Filtering on a list of one language is filtering on that language. *)
Lemma filter_language_in_singleton language placeholders :
  filter_language_in [language] placeholders
  = filter_language language placeholders.
Proof.
  unfold filter_language_in, filter_language. apply filter_ext.
  intros ph. induction (cmsplugin_languages ph) as [| l ls IH]; simpl.
  - reflexivity.
  - rewrite IH. f_equal. apply bool_decide_ext, list_elem_of_singleton.
Qed.

(** Both delete actions resolve through [get_delete_id_list]. *)
Lemma has_generic_permission_translation
    W page user opt_site check_global st :
  has_generic_permission W page user "delete_page_translation" opt_site
    check_global st
  = has_generic_permission W page user "delete_page" opt_site check_global st.
Proof.
  unfold has_generic_permission.
  rewrite (bind_Return _ _ _ _ _
             (getitem_Some (actions_map W) "delete_page_translation"
                (get_delete_id_list W) st eq_refl)).
  now rewrite (bind_Return _ _ _ _ _
                 (getitem_Some (actions_map W) "delete_page"
                    (get_delete_id_list W) st eq_refl)).
Qed.

(** The two delete actions require the same codes. *)
Lemma pre_checks_translation {A A'} W (func : User -> A -> M bool)
    (func' : User -> A' -> M bool) user args args' st :
  func user args st = func' user args' st ->
  permission_pre_checks W "delete_page_translation" func user args st
  = permission_pre_checks W "delete_page" func' user args' st.
Proof.
  intros Hfunc. unfold permission_pre_checks.
  destruct (negb (is_authenticated user)); [reflexivity |].
  destruct (is_superuser user); [reflexivity |].
  rewrite (bind_Return _ _ _ _ _
             (getitem_Some _django_permissions_by_action
                "delete_page_translation"
                [PAGE_CHANGE_CODENAME; PAGE_DELETE_CODENAME] st eq_refl)).
  rewrite (bind_Return _ _ _ _ _
             (getitem_Some _django_permissions_by_action "delete_page"
                [PAGE_CHANGE_CODENAME; PAGE_DELETE_CODENAME] st eq_refl)).
  destruct (negb (has_perms user _)); [reflexivity |].
  destruct (negb (PERMISSION W)); [reflexivity | exact Hfunc].
Qed.

(** The rows the delete rule of a translation goes through, written out on
    the placeholder table: those attached to the draft (to no page, when the
    published page points at none) that hold a plugin in the language, in
    table order. *)
Lemma delete_translation_placeholders W page language :
  filter_language language (_get_draft_placeholders W page)
  = List.filter
      (fun ph =>
         match (if publisher_is_draft page then Some (pk page)
                else publisher_public_id page) with
         | Some i => bool_decide (i ∈ placeholder_pages ph)
         | None => bool_decide (placeholder_pages ph = [])
         end
         && existsb (fun l => bool_decide (l = language))
              (cmsplugin_languages ph))
      (Placeholder_objects W).
Proof.
  unfold filter_language, _get_draft_placeholders, filter_page_pk.
  destruct (publisher_is_draft page); [| destruct (publisher_public_id page)];
    apply filter_filter_andb.
Qed.

(** X11. [user_can_delete_page_translation], for a user the pre-check lets
    through to the body, returns true exactly when the base delete grant
    passes and [has_delete_plugins_permission(user, [language])] holds for
    every row of the placeholder table that is attached to the draft (the
    page itself when it is a draft, the page its [publisher_public_id] names
    otherwise) and holds a plugin in that language; going through these rows
    in table order, it returns false at the first that fails, the rows
    behind it being left unasked.  The languages of the page play no
    part. *)
Theorem user_can_delete_page_translation_checks_placeholders
    W user page language st :
  is_authenticated user = true -> is_superuser user = false ->
  has_perms user [PAGE_CHANGE_CODENAME; PAGE_DELETE_CODENAME] = true ->
  PERMISSION W = true ->
  let draft_id := if publisher_is_draft page then Some (pk page)
                  else publisher_public_id page in
  let attached ph :=
    match draft_id with
    | Some i => bool_decide (i ∈ placeholder_pages ph)
    | None => bool_decide (placeholder_pages ph = [])
    end in
  let inspected :=
    List.filter
      (fun ph => attached ph
                 && existsb (fun l => bool_decide (l = language))
                      (cmsplugin_languages ph))
      (Placeholder_objects W) in
  let allowed ph := delete_plugins_permission W ph user [language] in
  ∃ base st1,
    has_generic_permission W page user "delete_page_translation" None true st
    = Return base st1
    ∧ (returned (user_can_delete_page_translation W user (page, language) st)
       = Some true ↔
       base = true
       ∧ ∀ ph, ph ∈ Placeholder_objects W ->
               attached ph = true ->
               language ∈ cmsplugin_languages ph ->
               allowed ph = true)
    ∧ (base = true ->
       ∀ passed failing rest,
         inspected = (passed ++ failing :: rest)%list ->
         (∀ ph, ph ∈ passed -> allowed ph = true) ->
         allowed failing = false ->
         user_can_delete_page_translation W user (page, language) st
         = Return false
             {| cache := cache st1;
                trace := trace st1
                         ++ map (fun ph =>
                                   EvHasDeletePlugins ph user [language])
                              (passed ++ [failing]) |}).
Proof.
  intros Hauth Hsu Hperms Hon draft_id attached inspected allowed.
  destruct (has_generic_permission_returns W page user
              "delete_page_translation" None true st)
    as (base & st1 & Hbase); [now eexists |].
  exists base, st1. split; [exact Hbase |].
  unfold user_can_delete_page_translation.
  rewrite (pre_checks_fall_through W "delete_page_translation" _ user
             (page, language) _ st eq_refl Hauth Hsu Hperms Hon).
  unfold cached_func. cbn beta iota. rewrite (bind_Return _ _ _ _ _ Hbase).
  rewrite (delete_translation_placeholders W page language).
  change (List.filter _ (Placeholder_objects W)) with inspected.
  assert (Hin : ∀ ph, In ph inspected ↔
                      ph ∈ Placeholder_objects W ∧ attached ph = true
                      ∧ language ∈ cmsplugin_languages ph).
  { intros ph. unfold inspected.
    rewrite filter_In, <- list_elem_of_In, andb_true_iff, existsb_exists.
    split.
    - intros (Hrow & Hatt & l & Hl & Heq). repeat split; try assumption.
      apply bool_decide_eq_true in Heq. subst l. now apply list_elem_of_In.
    - intros (Hrow & Hatt & Hl). repeat split; try assumption.
      exists language.
      split; [now apply list_elem_of_In | now apply bool_decide_eq_true]. }
  destruct base; simpl.
  - split.
    + rewrite for_placeholders_returned. split.
      * intros [= Hall]. split; [reflexivity |].
        intros ph Hrow Hatt Hplugin. rewrite forallb_forall in Hall.
        apply Hall. now apply Hin.
      * intros [_ Hall]. f_equal. apply forallb_forall.
        intros ph Hph. apply Hin in Hph as (Hrow & Hatt & Hplugin).
        now apply Hall.
    + intros _ passed failing rest -> Hpassed Hfail.
      now apply for_placeholders_first_failure.
  - split; [| discriminate].
    split; [discriminate | intros [? _]; discriminate].
Qed.

Lemma user_can_delete_page_translation_checks_placeholders_witness :
  user_can_delete_page_translation (Sample.world true "all" false false)
    Sample.editor (Sample.draft, "de") Sample.empty_state
  = Return false
      {| cache := <[("editor", "delete_page") := PageIds [1]]> ∅;
         trace := [EvCacheGet "editor" "delete_page";
                   EvHasGlobalPermission Sample.editor 1 "delete_page";
                   EvGetPageActions Sample.editor 1;
                   EvCacheSet "editor" "delete_page" [1];
                   EvHasDeletePlugins Sample.body Sample.editor ["de"]] |}.
Proof.
  destruct (user_can_delete_page_translation_checks_placeholders
              (Sample.world true "all" false false) Sample.editor
              Sample.draft "de" Sample.empty_state
              eq_refl eq_refl eq_refl eq_refl)
    as (base & st1 & Hbase & _ & Hfirst).
  vm_compute in Hbase. injection Hbase as <- <-.
  exact (Hfirst eq_refl [] Sample.body [] eq_refl
           (fun ph Hin => False_ind _ (not_elem_of_nil ph Hin)) eq_refl).
Defined.

(** X12. Deleting the only translation of a page is decided like deleting
    the page: when the page reports exactly one language, the two delete
    decisions are the same run, for every user and from every state. *)
Theorem delete_only_translation_is_delete_page W user page language st :
  get_languages page = [language] ->
  user_can_delete_page_translation W user (page, language) st
  = user_can_delete_page W user page st.
Proof.
  intros Hlangs.
  unfold user_can_delete_page_translation, user_can_delete_page.
  apply pre_checks_translation. unfold cached_func.
  unfold bind. rewrite has_generic_permission_translation.
  destruct (has_generic_permission W page user "delete_page" None true st)
    as [has_perm st1 | e st1]; [| reflexivity].
  now rewrite Hlangs, filter_language_in_singleton.
Qed.

Lemma delete_only_translation_is_delete_page_witness :
  user_can_delete_page_translation Sample.newsroom Sample.editor
    (Sample.leaflet, "en") Sample.empty_state
  = user_can_delete_page Sample.newsroom Sample.editor Sample.leaflet
      Sample.empty_state.
Proof.
  apply (delete_only_translation_is_delete_page Sample.newsroom
           Sample.editor Sample.leaflet "en" Sample.empty_state).
  reflexivity.
Defined.

(** X13. When no draft placeholder of the page holds a plugin in one of the
    page's languages (a page without languages, for one), deleting the page
    is decided by the base delete grant alone: for a user the pre-check lets
    through, the decision is the run of [has_generic_permission] for
    'delete_page', and no placeholder is asked. *)
Theorem delete_without_plugins_is_base_grant W user page st :
  is_authenticated user = true -> is_superuser user = false ->
  has_perms user [PAGE_CHANGE_CODENAME; PAGE_DELETE_CODENAME] = true ->
  PERMISSION W = true ->
  (∀ ph l, ph ∈ _get_draft_placeholders W page ->
           l ∈ cmsplugin_languages ph -> l ∉ get_languages page) ->
  user_can_delete_page W user page st
  = has_generic_permission W page user "delete_page" None true st.
Proof.
  intros Hauth Hsu Hperms Hon Hnone.
  assert (Hempty : filter_language_in (get_languages page)
                     (_get_draft_placeholders W page) = []).
  { destruct (filter_language_in _ _) as [| ph rest] eqn:Hf; [reflexivity |].
    assert (Hin : ph ∈ filter_language_in (get_languages page)
                         (_get_draft_placeholders W page))
      by (rewrite Hf; apply list_elem_of_here).
    apply filter_language_in_spec in Hin as [Hin (l & Hl & Hlang)].
    now destruct (Hnone ph l Hin Hl). }
  unfold user_can_delete_page.
  rewrite (pre_checks_fall_through W "delete_page" _ user page _ st
             eq_refl Hauth Hsu Hperms Hon).
  unfold cached_func, bind. rewrite Hempty.
  destruct (has_generic_permission W page user "delete_page" None true st)
    as [has_perm st1 | e st1]; [| reflexivity].
  now destruct has_perm.
Qed.

Lemma delete_without_plugins_is_base_grant_witness :
  user_can_delete_page Sample.newsroom Sample.editor Sample.blank
    Sample.empty_state
  = has_generic_permission Sample.newsroom Sample.blank Sample.editor
      "delete_page" None true Sample.empty_state.
Proof.
  apply (delete_without_plugins_is_base_grant Sample.newsroom Sample.editor
           Sample.blank Sample.empty_state eq_refl eq_refl eq_refl eq_refl).
  intros ph l _ _ Hin. exact (not_elem_of_nil l Hin).
Defined.

(** ** The view rule over the resolver *)

Lemma global_checks_app events events' :
  global_checks (events ++ events')
  = (global_checks events + global_checks events')%nat.
Proof.
  unfold global_checks. now rewrite List.filter_app, List.length_app.
Qed.

Lemma no_global_check_count events :
  no_global_check events -> global_checks events = 0%nat.
Proof.
  unfold global_checks. induction events as [| e events IH]; intros Hno.
  - reflexivity.
  - assert (Hrest : no_global_check events).
    { intros user s action Hin. apply (Hno user s action).
      now apply list_elem_of_further. }
    destruct e; simpl; try now apply IH.
    destruct (Hno user s action). apply list_elem_of_here.
Qed.

(** [user_can_view_all_pages] asks for a global grant at most once, and
    touches nothing else. *)
Lemma user_can_view_all_pages_trace W user s st :
  ∃ view_all (events : list Event),
    user_can_view_all_pages W user s st
    = Return view_all
        {| cache := cache st; trace := trace st ++ events |}
    ∧ (global_checks events <= 1)%nat.
Proof.
  assert (Hsame : st = {| cache := cache st; trace := trace st ++ [] |}).
  { rewrite app_nil_r. now destruct st. }
  unfold user_can_view_all_pages, cached_func.
  destruct (is_superuser user);
    [exists true, []; split; [now rewrite <- Hsame | unfold global_checks; simpl; lia] |].
  destruct (PERMISSION W); simpl;
    [| eexists _, []; split; [now rewrite <- Hsame | unfold global_checks; simpl; lia]].
  destruct (is_authenticated user); simpl;
    [| eexists _, []; split; [now rewrite <- Hsame | unfold global_checks; simpl; lia]].
  destruct (has_perm user PAGE_VIEW_CODENAME);
    [exists true, []; split; [now rewrite <- Hsame | unfold global_checks; simpl; lia] |].
  eexists _, [_]. split; [reflexivity | unfold global_checks; simpl; lia].
Qed.

(** X14. One evaluation of [user_can_view_page] asks for a global grant at
    most once: whatever the user, the page and the state, the trace gains at
    most one call of [has_global_permission]. *)
Theorem user_can_view_page_one_global_check W user page st :
  ∃ events : list Event,
    trace (final_state (user_can_view_page W user page st))
    = (trace st ++ events)%list
    ∧ (global_checks events <= 1)%nat.
Proof.
  assert (Hnil : ∃ events : list Event,
             trace st = (trace st ++ events)%list
             ∧ (global_checks events <= 1)%nat).
  { exists []. split; [now rewrite app_nil_r | unfold global_checks; simpl; lia]. }
  unfold user_can_view_page, cached_func.
  destruct (is_superuser user); [exact Hnil |].
  destruct (negb (has_view_restrictions W (get_page_draft W page))
            && can_see_unrestricted W user); [exact Hnil |].
  destruct (negb (is_authenticated user)); [exact Hnil |].
  destruct (user_can_view_all_pages_trace W user
              (site (get_page_draft W page)) st)
    as (view_all & events & Hall & Hcount).
  rewrite (bind_Return _ _ _ _ _ Hall).
  destruct view_all; [now exists events |].
  destruct (negb (has_view_restrictions W (get_page_draft W page)));
    [now exists events |].
  rewrite bind_ret_r.
  destruct (has_generic_permission_view_unchecked_trace W
              (get_page_draft W page) user None
              {| cache := cache st; trace := trace st ++ events |})
    as (events' & Htrace & Hno).
  exists (events ++ events')%list. split.
  - rewrite Htrace. simpl. now rewrite app_assoc.
  - rewrite global_checks_app, (no_global_check_count _ Hno). lia.
Qed.



(** ** Answers given without the cache and the role tables *)

(** X16. For a superuser, and for everybody while the permission subsystem
    is disabled, [has_generic_permission] returns true for every page and
    every action of its dispatch dictionary, pages without a resolved
    identity included, and leaves the cache and the trace as they were. *)
Theorem grant_all_admits_every_page
    W page user action opt_site check_global getter st :
  actions_map W !! action = Some getter ->
  is_superuser user = true ∨ PERMISSION W = false ->
  has_generic_permission W page user action opt_site check_global st
  = Return true st.
Proof.
  intros Hget Hall.
  assert (Hcond : is_superuser user || negb (PERMISSION W) = true).
  { destruct Hall as [-> | ->]; [reflexivity | apply orb_true_r]. }
  rewrite (has_generic_permission_run W page user action opt_site
             check_global getter st GRANT_ALL_PERMISSIONS st Hget);
    [reflexivity |].
  rewrite (actions_map_resolved _ _ _ Hget).
  unfold _get_page_ids_for_action. now rewrite Hcond.
Qed.

Lemma grant_all_admits_every_page_witness :
  has_generic_permission (Sample.world false "staff" true false)
    Sample.blank Sample.reader "move_page" None true Sample.empty_state
  = Return true Sample.empty_state.
Proof.
  apply (grant_all_admits_every_page (Sample.world false "staff" true false)
           Sample.blank Sample.reader "move_page" None true
           (get_move_page_id_list (Sample.world false "staff" true false))
           Sample.empty_state);
    [reflexivity | right; reflexivity].
Defined.

(** X17. An unauthenticated user is answered without the permission cache
    being read or written and without a call of [has_global_permission],
    [get_page_actions_for_user] or [has_delete_plugins_permission].  The
    decorated decisions answer false; [user_can_view_page] answers from the
    superuser flag, the view restrictions of the page's draft and the
    public-visibility policy; [user_can_view_all_pages] answers from the
    superuser flag, the PERMISSION setting and the policy. *)
Theorem unauthenticated_leaves_state W user d st :
  is_authenticated user = false ->
  let admitted :=
    String.eqb (PUBLIC_FOR W) "all"
    || (String.eqb (PUBLIC_FOR W) "staff" && is_staff user) in
  decide_permission W user d st
  = Return
      match d with
      | CanViewPage page =>
          is_superuser user
          || (negb (has_view_restrictions W
                      (if publisher_is_draft page then page
                       else publisher_draft W page))
              && admitted)
      | CanViewAllPages _ =>
          is_superuser user || (negb (PERMISSION W) && admitted)
      | _ => false
      end
      st.
Proof.
  intros Hauth admitted.
  destruct (pre_check_action d) as [action |] eqn:Hact.
  - destruct (decorated_decision W d action Hact) as (A & func & args & ->).
    rewrite pre_checks_unauthenticated by exact Hauth.
    now destruct d; try discriminate Hact.
  - destruct d; try discriminate Hact; simpl.
    + unfold user_can_view_page, cached_func. rewrite Hauth. simpl.
      fold (get_page_draft W page).
      change (can_see_unrestricted W user) with admitted.
      destruct (is_superuser user); [reflexivity |].
      now destruct (negb (has_view_restrictions W (get_page_draft W page))
                    && admitted).
    + unfold user_can_view_all_pages, cached_func. rewrite Hauth. simpl.
      change (can_see_unrestricted W user) with admitted.
      destruct (is_superuser user); [reflexivity |].
      now destruct (negb (PERMISSION W)).
Qed.

Lemma unauthenticated_leaves_state_witness :
  decide_permission Sample.newsroom Sample.anonymous
    (CanViewPage Sample.leaflet) Sample.empty_state
  = Return false Sample.empty_state
  ∧ decide_permission (Sample.world true "all" false false) Sample.anonymous
      (CanViewPage Sample.leaflet) Sample.empty_state
    = Return true Sample.empty_state.
Proof.
  split.
  - apply (unauthenticated_leaves_state Sample.newsroom Sample.anonymous
             (CanViewPage Sample.leaflet) Sample.empty_state).
    reflexivity.
  - apply (unauthenticated_leaves_state (Sample.world true "all" false false)
             Sample.anonymous (CanViewPage Sample.leaflet)
             Sample.empty_state).
    reflexivity.
Defined.

(** With the subsystem disabled the wrapper answers before [func] runs. *)
Lemma pre_checks_disabled_state {A} W action (func : User -> A -> M bool)
    user args st :
  is_Some (_django_permissions_by_action !! action) ->
  PERMISSION W = false ->
  final_state (permission_pre_checks W action func user args st) = st.
Proof.
  intros [permissions Htable] Hoff. unfold permission_pre_checks.
  destruct (negb (is_authenticated user)); [reflexivity |].
  destruct (is_superuser user); [reflexivity |].
  rewrite (bind_Return _ _ _ _ _ (getitem_Some _ _ _ st Htable)).
  destruct (negb (has_perms user permissions)); [reflexivity |].
  now rewrite Hoff.
Qed.

(** X18. While the permission subsystem is disabled no public decision
    reads or writes the permission cache or calls a collaborator: every
    decision is taken from the user's flags and codes, the settings and the
    view restrictions of the page. *)
Theorem disabled_subsystem_leaves_state W user d st :
  PERMISSION W = false ->
  final_state (decide_permission W user d st) = st.
Proof.
  intros Hoff.
  destruct (pre_check_action d) as [action |] eqn:Hact.
  - destruct (decorated_decision W d action Hact) as (A & func & args & ->).
    apply pre_checks_disabled_state; [| exact Hoff].
    now apply pre_check_action_in_table with d.
  - assert (Hall : ∀ s, user_can_view_all_pages W user s st
                        = Return (is_superuser user
                                  || can_see_unrestricted W user) st).
    { intros s. unfold user_can_view_all_pages, cached_func. rewrite Hoff.
      now destruct (is_superuser user). }
    destruct d; try discriminate Hact; simpl; [| now rewrite Hall].
    unfold user_can_view_page, cached_func.
    destruct (is_superuser user) eqn:Hsu; [reflexivity |].
    destruct (negb (has_view_restrictions W (get_page_draft W page))
              && can_see_unrestricted W user); [reflexivity |].
    destruct (negb (is_authenticated user)); [reflexivity |].
    rewrite (bind_Return _ _ _ _ _ (Hall _)). simpl.
    destruct (can_see_unrestricted W user); [reflexivity |].
    destruct (negb (has_view_restrictions W (get_page_draft W page)));
      [reflexivity |].
    rewrite bind_ret_r.
    rewrite (has_generic_permission_run W (get_page_draft W page) user
               "view_page" None false (get_view_id_list W) st
               GRANT_ALL_PERMISSIONS st eq_refl);
      [reflexivity |].
    unfold get_view_id_list, _get_page_ids_for_action.
    now rewrite Hsu, Hoff.
Qed.

Lemma disabled_subsystem_leaves_state_witness :
  final_state (decide_permission (Sample.world false "staff" true true)
                 Sample.reader (CanViewPage Sample.leaflet)
                 Sample.empty_state)
  = Sample.empty_state.
Proof.
  apply (disabled_subsystem_leaves_state
           (Sample.world false "staff" true true) Sample.reader
           (CanViewPage Sample.leaflet) Sample.empty_state).
  reflexivity.
Defined.
